(** * A shallow embedding of the go-pop3 client (pop3.go)

    The client talks to a POP3 server over a line-oriented byte stream.
    Go strings are byte strings, so they are modelled by [string] (a list of
    8-bit [ascii] characters); Go's [int] is the 64-bit signed integer and is
    modelled by [Z].  The functions of the Go standard library that pop3.go
    calls ([strings], [strconv], [unicode/utf8], [encoding/base64],
    [crypto/md5], [crypto/hmac], [fmt], [net/smtp]) are modelled first, each
    one after its Go source, and then the methods of [Client].  [Dial],
    [DialTLS] and [Quit] open and close the transport and are left out. *)

From Stdlib Require Import ZArith List String Ascii Bool Lia DecimalString.
Import ListNotations.

Local Open Scope string_scope.
Local Open Scope Z_scope.

(** ** Bytes *)

Definition byteZ (c : ascii) : Z := Z.of_N (N_of_ascii c).
Definition byteOf (z : Z) : ascii := ascii_of_N (Z.to_N (z mod 256)).

Definition bytesOf (s : string) : list Z := map byteZ (list_ascii_of_string s).
Definition stringOf (l : list Z) : string := string_of_list_ascii (map byteOf l).

(** [s[n:]] for [n <= len(s)]. *)
Fixpoint drop (n : nat) (s : string) : string :=
  match n, s with
  | O, _ => s
  | S n', String _ t => drop n' t
  | S _, EmptyString => EmptyString
  end.

(** ** Package unicode/utf8 and unicode *)

Module Utf8.

Definition RuneError : Z := 0xFFFD.

(** The table [first] of utf8.go together with [acceptRanges]: for a leading
    byte, the length of the sequence and the range accepted for the second
    byte; [None] is the entry [xx] (invalid leading byte).  ASCII bytes are
    handled before the table is consulted. *)
Definition first (s0 : Z) : option (nat * Z * Z) :=
  if s0 <? 0xC2 then None
  else if s0 <=? 0xDF then Some (2%nat, 0x80, 0xBF)
  else if s0 =? 0xE0 then Some (3%nat, 0xA0, 0xBF)
  else if s0 <=? 0xEC then Some (3%nat, 0x80, 0xBF)
  else if s0 =? 0xED then Some (3%nat, 0x80, 0x9F)
  else if s0 <=? 0xEF then Some (3%nat, 0x80, 0xBF)
  else if s0 =? 0xF0 then Some (4%nat, 0x90, 0xBF)
  else if s0 <=? 0xF3 then Some (4%nat, 0x80, 0xBF)
  else if s0 =? 0xF4 then Some (4%nat, 0x80, 0x8F)
  else None.

Definition notCont (b : Z) : bool := (b <? 0x80) || (0xBF <? b).

(** utf8.DecodeRuneInString: the rune at the head of [s] and its width. *)
Definition DecodeRuneInString (s : string) : Z * nat :=
  match s with
  | EmptyString => (RuneError, 0%nat)
  | String c0 t0 =>
    let s0 := byteZ c0 in
    if s0 <? 0x80 then (s0, 1%nat)
    else match first s0 with
    | None => (RuneError, 1%nat)
    | Some (sz, lo, hi) =>
      if (String.length s <? sz)%nat then (RuneError, 1%nat)
      else match t0 with
      | EmptyString => (RuneError, 1%nat)
      | String c1 t1 =>
        let s1 := byteZ c1 in
        if (s1 <? lo) || (hi <? s1) then (RuneError, 1%nat)
        else if (sz <=? 2)%nat
        then (Z.lor (Z.shiftl (Z.land s0 0x1F) 6) (Z.land s1 0x3F), 2%nat)
        else match t1 with
        | EmptyString => (RuneError, 1%nat)
        | String c2 t2 =>
          let s2 := byteZ c2 in
          if notCont s2 then (RuneError, 1%nat)
          else if (sz <=? 3)%nat
          then (Z.lor (Z.lor (Z.shiftl (Z.land s0 0x0F) 12)
                             (Z.shiftl (Z.land s1 0x3F) 6))
                      (Z.land s2 0x3F), 3%nat)
          else match t2 with
          | EmptyString => (RuneError, 1%nat)
          | String c3 _ =>
            let s3 := byteZ c3 in
            if notCont s3 then (RuneError, 1%nat)
            else (Z.lor (Z.lor (Z.lor (Z.shiftl (Z.land s0 0x07) 18)
                                      (Z.shiftl (Z.land s1 0x3F) 12))
                               (Z.shiftl (Z.land s2 0x3F) 6))
                        (Z.land s3 0x3F), 4%nat)
          end
        end
      end
    end
  end.

(** [for i, r := range s]: the runes of [s] with their widths, in order.
    [skip] counts the bytes of the current rune still to be passed over. *)
Fixpoint rangeFrom (skip : nat) (s : string) : list (Z * nat) :=
  match s with
  | EmptyString => []
  | String _ t =>
    match skip with
    | S k => rangeFrom k t
    | O => let rw := DecodeRuneInString s in rw :: rangeFrom (snd rw - 1) t
    end
  end.

Definition rangeString (s : string) : list (Z * nat) := rangeFrom 0 s.

(** unicode.IsSpace: the Latin-1 cases, then the White_Space table. *)
Definition IsSpace (r : Z) : bool :=
  if r <=? 0xFF
  then ((0x09 <=? r) && (r <=? 0x0D)) || (r =? 0x20) || (r =? 0x85) || (r =? 0xA0)
  else (r =? 0x1680) || ((0x2000 <=? r) && (r <=? 0x200A))
       || (r =? 0x2028) || (r =? 0x2029) || (r =? 0x202F)
       || (r =? 0x205F) || (r =? 0x3000).

End Utf8.

(** ** Package strings *)

Module Strings.

(** strings.HasPrefix: [len(s) >= len(pre) && s[:len(pre)] == pre]. *)
Fixpoint HasPrefix (s pre : string) : bool :=
  match pre, s with
  | EmptyString, _ => true
  | String _ _, EmptyString => false
  | String p pre', String c s' => Ascii.eqb c p && HasPrefix s' pre'
  end.

(** strings.Index for a one-byte separator, returning the text before and
    after its first occurrence ([s[:m]] and [s[m+1:]]). *)
Fixpoint cutByte (sep : ascii) (s : string) : option (string * string) :=
  match s with
  | EmptyString => None
  | String c t =>
    if Ascii.eqb c sep then Some (EmptyString, t)
    else match cutByte sep t with
         | Some (a, b) => Some (String c a, b)
         | None => None
         end
  end.

(** The loop of strings.genSplit: at most [k] cuts, then the rest. *)
Fixpoint genSplit (k : nat) (sep : ascii) (s : string) : list string :=
  match k with
  | O => [s]
  | S k' =>
    match cutByte sep s with
    | None => [s]
    | Some (a, rest) => a :: genSplit k' sep rest
    end
  end.

(** strings.SplitN(s, sep, n) for the one-byte separators pop3.go uses.
    [n = 0] gives nil (the empty list); [n < 0] cuts at every separator,
    of which there are at most [len(s)]. *)
Definition SplitN (s : string) (sep : ascii) (n : Z) : list string :=
  if n =? 0 then []
  else if n <? 0 then genSplit (String.length s) sep s
  else genSplit (Z.to_nat (n - 1)) sep s.

(** strings.Split(s, sep) = SplitN(s, sep, -1) *)
Definition Split (s : string) (sep : ascii) : list string := SplitN s sep (-1).

(** The span loop of strings.FieldsFunc: [pos] is the byte offset of the
    current rune, [start] the offset at which the open field began. *)
Fixpoint spans (rs : list (Z * nat)) (pos : nat) (start : option nat)
  : list (nat * nat) :=
  match rs with
  | [] => match start with
          | Some b => [(b, pos)]
          | None => []
          end
  | (r, w) :: rs' =>
    if Utf8.IsSpace r
    then match start with
         | Some b => (b, pos) :: spans rs' (pos + w)%nat None
         | None => spans rs' (pos + w)%nat None
         end
    else match start with
         | Some _ => spans rs' (pos + w)%nat start
         | None => spans rs' (pos + w)%nat (Some pos)
         end
  end.

(** strings.Fields: the maximal runs of non-space runes.  Go takes a fast
    path on pure ASCII input and otherwise calls
    [FieldsFunc(s, unicode.IsSpace)]; both compute the spans below. *)
Definition Fields (s : string) : list string :=
  map (fun se => substring (fst se) (snd se - fst se) s)
      (spans (Utf8.rangeString s) 0 None).

(** strings.Join *)
Definition Join (elems : list string) (sep : string) : string :=
  String.concat sep elems.

End Strings.

(** ** Errors

    Go's [error] values that can reach a caller of this package.  A nil
    error is [None] in [option error]. *)

Inductive numErr : Type := ErrSyntax | ErrRange.

Inductive error : Type :=
| errorString (msg : string)                  (* errors.New(msg) *)
| NumError (func num : string) (e : numErr)   (* *strconv.NumError *)
| CorruptInputError (offset : Z)              (* base64.CorruptInputError *)
| ioError (msg : string).                     (* an error of the transport, such as io.EOF *)

(** ** Package strconv (IntSize = 64) *)

Module Strconv.

Definition isDigit (c : ascii) : bool := (48 <=? byteZ c) && (byteZ c <=? 57).

Definition maxUint64 : Z := 2 ^ 64 - 1.

(** The digit loop of strconv.ParseUint for base 10 and bitSize 64; [n] is
    the value read so far.  A byte that is no digit is a syntax error; a
    value that leaves uint64 is a range error, reported as soon as it is
    seen. *)
Fixpoint parseUintLoop (s : string) (n : Z) : Z * option numErr :=
  match s with
  | EmptyString => (n, None)
  | String c t =>
    if isDigit c then
      if n >=? maxUint64 / 10 + 1 then (maxUint64, Some ErrRange)
      else
        let n1 := n * 10 + (byteZ c - 48) in
        if n1 >? maxUint64 then (maxUint64, Some ErrRange)
        else parseUintLoop t n1
    else (0, Some ErrSyntax)
  end.

Definition ParseUint (s : string) : Z * option numErr :=
  match s with
  | EmptyString => (0, Some ErrSyntax)
  | _ => parseUintLoop s 0
  end.

(** strconv.ParseInt(s, 10, 0) *)
Definition ParseInt (s : string) : Z * option numErr :=
  match s with
  | EmptyString => (0, Some ErrSyntax)
  | String c t =>
    let neg := Ascii.eqb c "-" in
    let s' := if Ascii.eqb c "+" || Ascii.eqb c "-" then t else s in
    let '(un, err) := ParseUint s' in
    match err with
    | Some ErrSyntax => (0, Some ErrSyntax)
    | _ =>
      let cutoff := 2 ^ 63 in
      if negb neg && (un >=? cutoff) then (cutoff - 1, Some ErrRange)
      else if neg && (un >? cutoff) then (- cutoff, Some ErrRange)
      else (if neg then - un else un, None)
    end
  end.

(** The fast path of strconv.Atoi, taken when [0 < len(s) < 19]. *)
Fixpoint atoiLoop (s : string) (n : Z) : option Z :=
  match s with
  | EmptyString => Some n
  | String c t => if isDigit c then atoiLoop t (n * 10 + (byteZ c - 48)) else None
  end.

(** strconv.Atoi: the value and the error.  The *NumError always carries
    the function name "Atoi" and the whole input. *)
Definition Atoi (s : string) : Z * option error :=
  let sLen := Z.of_nat (String.length s) in
  if (0 <? sLen) && (sLen <? 19) then
    match s with
    | EmptyString => (0, Some (NumError "Atoi" s ErrSyntax))
    | String c t =>
      let body := if Ascii.eqb c "-" || Ascii.eqb c "+" then t else s in
      match body with
      | EmptyString => (0, Some (NumError "Atoi" s ErrSyntax))
      | _ =>
        match atoiLoop body 0 with
        | None => (0, Some (NumError "Atoi" s ErrSyntax))
        | Some n => (if Ascii.eqb c "-" then - n else n, None)
        end
      end
    end
  else
    let '(i64, err) := ParseInt s in
    (i64, match err with
          | Some e => Some (NumError "Atoi" s e)
          | None => None
          end).

(** The decimal text of an int, as strconv.Itoa and fmt's %d print it. *)
Definition Itoa (n : Z) : string := NilZero.string_of_int (Z.to_int n).

End Strconv.

(** ** Package fmt

    [Sprintf] is modelled on the directives pop3.go can reach with string
    and int operands: literal text, [%%], [%s], [%d] and [%v], with fmt's
    own reports for a missing operand, an operand of the wrong type, extra
    operands and a trailing [%].  Flags, widths, precisions, operand indices
    and all other verbs are outside the model: there the result is [None]. *)

Module Fmt.

Inductive arg : Type :=
| Str (s : string)
| Int (n : Z).

Definition typeName (a : arg) : string :=
  match a with Str _ => "string" | Int _ => "int" end.

(** printArg(a, 'v') *)
Definition printV (a : arg) : string :=
  match a with Str s => s | Int n => Strconv.Itoa n end.

Definition isVerb (c : ascii) : bool :=
  Ascii.eqb c "s" || Ascii.eqb c "d" || Ascii.eqb c "v".

(** printArg(a, verb) for verb among s, d, v; a verb that does not fit the
    operand's type prints [%!verb(type=value)]. *)
Definition printArg (a : arg) (verb : ascii) : string :=
  match a with
  | Str s =>
    if Ascii.eqb verb "d" then "%!d(string=" ++ s ++ ")" else s
  | Int n =>
    if Ascii.eqb verb "s" then "%!s(int=" ++ Strconv.Itoa n ++ ")"
    else Strconv.Itoa n
  end.

Fixpoint extraList (first : bool) (args : list arg) : string :=
  match args with
  | [] => ""
  | a :: rest =>
    (if first then "" else ", ") ++ typeName a ++ "=" ++ printV a
      ++ extraList false rest
  end.

(** The text appended when operands are left over. *)
Definition extra (args : list arg) : string :=
  match args with
  | [] => ""
  | _ => "%!(EXTRA " ++ extraList true args ++ ")"
  end.

Definition cons (c : ascii) (o : option string) : option string :=
  option_map (String c) o.

Definition app (s : string) (o : option string) : option string :=
  option_map (append s) o.

(** The loop of fmt's doPrintf. *)
Fixpoint doPrintf (format : string) (args : list arg) : option string :=
  match format with
  | EmptyString => Some (extra args)
  | String c t =>
    if Ascii.eqb c "%" then
      match t with
      | EmptyString => Some ("%!(NOVERB)" ++ extra args)
      | String v t' =>
        if Ascii.eqb v "%" then cons "%" (doPrintf t' args)
        else if isVerb v then
          match args with
          | [] => app ("%!" ++ String v "(MISSING)") (doPrintf t' [])
          | a :: args' => app (printArg a v) (doPrintf t' args')
          end
        else None
      end
    else cons c (doPrintf t args)
  end.

Definition Sprintf (format : string) (args : list arg) : option string :=
  doPrintf format args.

End Fmt.

(** ** Package encoding/base64: StdEncoding (padded, not strict) *)

Module Base64.

Definition encodeStd : string :=
  "ABCDEFGHIJKLMNOPQRSTUVWXYZabcdefghijklmnopqrstuvwxyz0123456789+/".

(** [enc.encode[v]] for a 6-bit [v]. *)
Definition encodeByte (v : Z) : ascii :=
  match String.get (Z.to_nat (Z.land v 0x3F)) encodeStd with
  | Some c => c
  | None => "="%char
  end.

(** Encoding.Encode on the bytes [src]: whole groups of three bytes,
    then the padded remainder of one or two bytes. *)
Fixpoint encode (src : list Z) : string :=
  match src with
  | [] => ""
  | [b0] =>
    let val := Z.shiftl b0 16 in
    String (encodeByte (Z.shiftr val 18))
      (String (encodeByte (Z.shiftr val 12)) "==")
  | [b0; b1] =>
    let val := Z.lor (Z.shiftl b0 16) (Z.shiftl b1 8) in
    String (encodeByte (Z.shiftr val 18))
      (String (encodeByte (Z.shiftr val 12))
        (String (encodeByte (Z.shiftr val 6)) "="))
  | b0 :: b1 :: b2 :: rest =>
    let val := Z.lor (Z.lor (Z.shiftl b0 16) (Z.shiftl b1 8)) b2 in
    String (encodeByte (Z.shiftr val 18))
      (String (encodeByte (Z.shiftr val 12))
        (String (encodeByte (Z.shiftr val 6))
          (String (encodeByte val) (encode rest))))
  end.

Definition EncodeToString (src : list Z) : string := encode src.

(** [enc.decodeMap[c]]; [None] stands for the entry 0xff. *)
Definition decodeMap (c : ascii) : option Z :=
  let b := byteZ c in
  if (65 <=? b) && (b <=? 90) then Some (b - 65)
  else if (97 <=? b) && (b <=? 122) then Some (b - 71)
  else if (48 <=? b) && (b <=? 57) then Some (b + 4)
  else if b =? 43 then Some 62
  else if b =? 47 then Some 63
  else None.

Definition isNewline (c : ascii) : bool := (byteZ c =? 10) || (byteZ c =? 13).

(** Skipping over newlines: the remaining input and the new offset. *)
Fixpoint skipNewlines (src : string) (si : Z) : string * Z :=
  match src with
  | String c t => if isNewline c then skipNewlines t (si + 1) else (src, si)
  | EmptyString => (src, si)
  end.

(** The end of decodeQuantum: the first [dlen - 1] bytes of the 24-bit
    value built from the four 6-bit digits in [dbuf] (missing digits are
    zero). *)
Definition quantumBytes (dbuf : list Z) (dlen : nat) : list Z :=
  let d := fun i => nth i dbuf 0 in
  let val := Z.lor (Z.lor (Z.lor (Z.shiftl (d 0%nat) 18) (Z.shiftl (d 1%nat) 12))
                          (Z.shiftl (d 2%nat) 6)) (d 3%nat) in
  firstn (dlen - 1)
    [Z.land (Z.shiftr val 16) 0xFF; Z.land (Z.shiftr val 8) 0xFF; Z.land val 0xFF].

(** After the padding of a quantum: newlines may follow, anything else is
    trailing garbage, reported after the quantum's bytes are delivered. *)
Definition afterPadding (t : string) (si : Z) (j : nat) (dbuf n : list Z)
  : list Z * option error :=
  let '(t', si') := skipNewlines t si in
  ((n ++ quantumBytes dbuf j)%list,
   match t' with
   | EmptyString => None
   | String _ _ => Some (CorruptInputError si')
   end).

(** Encoding.Decode as the sequence of its decodeQuantum calls (the
    8- and 4-byte fast paths decode the same quanta).  [si] is the offset of
    the head of [src] in the whole input, [j] the number of digits of the
    current quantum held in [dbuf], [n] the bytes decoded so far. *)
Fixpoint decodeFrom (src : string) (si : Z) (j : nat) (dbuf n : list Z)
  : list Z * option error :=
  match src with
  | EmptyString =>
    match j with
    | O => (n, None)
    | _ => (n, Some (CorruptInputError (si - Z.of_nat j)))
    end
  | String c t =>
    match decodeMap c with
    | Some out =>
      if (j =? 3)%nat
      then decodeFrom t (si + 1) 0%nat [] (n ++ quantumBytes (dbuf ++ [out]) 4)%list
      else decodeFrom t (si + 1) (S j) (dbuf ++ [out])%list n
    | None =>
      if isNewline c then decodeFrom t (si + 1) j dbuf n
      else if negb (Ascii.eqb c "=") then (n, Some (CorruptInputError si))
      else
        match j with
        | 0%nat | 1%nat => (n, Some (CorruptInputError si))
        | 2%nat =>
          let '(t', si') := skipNewlines t (si + 1) in
          match t' with
          | EmptyString => (n, Some (CorruptInputError si'))
          | String c' t'' =>
            if negb (Ascii.eqb c' "=") then (n, Some (CorruptInputError (si' - 1)))
            else afterPadding t'' (si' + 1) j dbuf n
          end
        | _ => afterPadding t (si + 1) j dbuf n
        end
    end
  end.

(** Encoding.DecodeString *)
Definition DecodeString (s : string) : list Z * option error :=
  decodeFrom s 0 0%nat [] [].

End Base64.

(** ** Packages crypto/md5 and crypto/hmac (RFC 1321, RFC 2104) *)

Module MD5.

Definition add32 (a b : Z) : Z := (a + b) mod 2 ^ 32.
Definition not32 (a : Z) : Z := Z.lxor a 0xFFFFFFFF.
Definition rotl32 (x s : Z) : Z :=
  Z.lor (Z.shiftl x s mod 2 ^ 32) (Z.shiftr x (32 - s)).

Definition K : list Z :=
  [ 0xd76aa478; 0xe8c7b756; 0x242070db; 0xc1bdceee;
    0xf57c0faf; 0x4787c62a; 0xa8304613; 0xfd469501;
    0x698098d8; 0x8b44f7af; 0xffff5bb1; 0x895cd7be;
    0x6b901122; 0xfd987193; 0xa679438e; 0x49b40821;
    0xf61e2562; 0xc040b340; 0x265e5a51; 0xe9b6c7aa;
    0xd62f105d; 0x02441453; 0xd8a1e681; 0xe7d3fbc8;
    0x21e1cde6; 0xc33707d6; 0xf4d50d87; 0x455a14ed;
    0xa9e3e905; 0xfcefa3f8; 0x676f02d9; 0x8d2a4c8a;
    0xfffa3942; 0x8771f681; 0x6d9d6122; 0xfde5380c;
    0xa4beea44; 0x4bdecfa9; 0xf6bb4b60; 0xbebfbc70;
    0x289b7ec6; 0xeaa127fa; 0xd4ef3085; 0x04881d05;
    0xd9d4d039; 0xe6db99e5; 0x1fa27cf8; 0xc4ac5665;
    0xf4292244; 0x432aff97; 0xab9423a7; 0xfc93a039;
    0x655b59c3; 0x8f0ccc92; 0xffeff47d; 0x85845dd1;
    0x6fa87e4f; 0xfe2ce6e0; 0xa3014314; 0x4e0811a1;
    0xf7537e82; 0xbd3af235; 0x2ad7d2bb; 0xeb86d391 ].

Definition shifts : list Z :=
  [ 7; 12; 17; 22; 7; 12; 17; 22; 7; 12; 17; 22; 7; 12; 17; 22;
    5; 9; 14; 20; 5; 9; 14; 20; 5; 9; 14; 20; 5; 9; 14; 20;
    4; 11; 16; 23; 4; 11; 16; 23; 4; 11; 16; 23; 4; 11; 16; 23;
    6; 10; 15; 21; 6; 10; 15; 21; 6; 10; 15; 21; 6; 10; 15; 21 ].

(** A 64-bit count as eight little-endian bytes, a 32-bit word as four. *)
Fixpoint leBytes (k : nat) (v : Z) : list Z :=
  match k with
  | O => []
  | S k' => v mod 256 :: leBytes k' (v / 256)
  end.

Definition pad (msg : list Z) : list Z :=
  let len := Z.of_nat (List.length msg) in
  (msg ++ [0x80] ++ repeat 0 (Z.to_nat ((55 - len) mod 64)) ++ leBytes 8 (8 * len))%list.

(** Little-endian 32-bit words of a byte sequence (a multiple of four long). *)
Fixpoint words (bs : list Z) : list Z :=
  match bs with
  | b0 :: b1 :: b2 :: b3 :: rest =>
    (b0 + 256 * (b1 + 256 * (b2 + 256 * b3))) :: words rest
  | _ => []
  end.

Definition state : Type := (Z * Z * Z * Z)%type.

(** Step [i] (0..63) of the compression function on the block [M]. *)
Definition step (M : list Z) (st : state) (i : Z) : state :=
  let '(a, b, c, d) := st in
  let '(f, g) :=
    if i <? 16 then (Z.lor (Z.land b c) (Z.land (not32 b) d), i)
    else if i <? 32 then (Z.lor (Z.land d b) (Z.land (not32 d) c), (5 * i + 1) mod 16)
    else if i <? 48 then (Z.lxor (Z.lxor b c) d, (3 * i + 5) mod 16)
    else (Z.lxor c (Z.lor b (not32 d)), (7 * i) mod 16) in
  let f' := add32 (add32 (add32 f a) (nth (Z.to_nat i) K 0)) (nth (Z.to_nat g) M 0) in
  (d, add32 b (rotl32 f' (nth (Z.to_nat i) shifts 0)), b, c).

Definition block (st : state) (M : list Z) : state :=
  let '(a0, b0, c0, d0) := st in
  let '(a, b, c, d) := fold_left (step M) (map Z.of_nat (seq 0 64)) st in
  (add32 a0 a, add32 b0 b, add32 c0 c, add32 d0 d).

(** Consecutive 16-word blocks; [k] bounds their number. *)
Fixpoint blocks (k : nat) (ws : list Z) (st : state) : state :=
  match k, ws with
  | S k', _ :: _ => blocks k' (skipn 16 ws) (block st (firstn 16 ws))
  | _, _ => st
  end.

(** md5.Sum: the 16-byte digest of [msg]. *)
Definition Sum (msg : list Z) : list Z :=
  let ws := words (pad msg) in
  let '(a, b, c, d) :=
    blocks (List.length ws) ws (0x67452301, 0xefcdab89, 0x98badcfe, 0x10325476) in
  (leBytes 4 a ++ leBytes 4 b ++ leBytes 4 c ++ leBytes 4 d)%list.

(** hmac.New(md5.New, key), Write(msg), Sum(nil) *)
Definition HMAC (key msg : list Z) : list Z :=
  let key1 := if (64 <? List.length key)%nat then Sum key else key in
  let key2 := (key1 ++ repeat 0 (64 - List.length key1))%list in
  let ipad := map (fun b => Z.lxor b 0x36) key2 in
  let opad := map (fun b => Z.lxor b 0x5c) key2 in
  Sum (opad ++ Sum (ipad ++ msg))%list.

End MD5.

(** fmt's %x on a byte slice: two lower-case hexadecimal digits per byte. *)
Definition hexDigit (v : Z) : ascii :=
  match String.get (Z.to_nat v) "0123456789abcdef" with
  | Some c => c
  | None => "0"%char
  end.

Fixpoint hex (bs : list Z) : string :=
  match bs with
  | [] => ""
  | b :: rest => String (hexDigit (b / 16)) (String (hexDigit (b mod 16)) (hex rest))
  end.

(** ** Package net/smtp: CRAMMD5Auth(username, secret).Next(fromServer, true)

    The reply to a challenge is [Sprintf("%s %x", username, digest)] with
    the HMAC-MD5 of the challenge keyed by the secret; with [more = true]
    the call returns no error. *)

Definition CRAMMD5Next (username secret : string) (fromServer : list Z) : list Z :=
  bytesOf (username ++ " " ++ hex (MD5.HMAC (bytesOf secret) fromServer)).

(** ** The client *)

Module Pop3.

Definition CRLF : string := String (ascii_of_nat 13) (String (ascii_of_nat 10) "").
Definition LF : string := String (ascii_of_nat 10) "".

(** The connection as the client sees it.  [conn] holds every byte written
    to [c.conn] so far.  [bin] holds what the successive calls of
    [c.bin.ReadLine()] will deliver (lines without their end-of-line bytes;
    a line longer than the reader's buffer arrives in several pieces, which
    pop3.go treats as several lines since it drops [isPrefix]); once they
    are used up every ReadLine fails with [binErr].  A write error is
    dropped by pop3.go ([Fprintf]'s results are not looked at), so writes
    always succeed here. *)
Record Client : Type := mkClient {
  conn : string;
  bin : list string;
  binErr : error
}.

(** What running a method does: it returns, or the Go run time panics with
    "index out of range [index] with length [length]", or the call leaves
    the part of fmt that is modelled. *)
Inductive outcome (A : Type) : Type :=
| Done (a : A)
| Panic (index length : nat)
| Unmodelled.

Arguments Done {A} a.
Arguments Panic {A} index length.
Arguments Unmodelled {A}.

Definition M (A : Type) : Type := Client -> outcome (A * Client).

Definition ret {A} (a : A) : M A := fun c => Done (a, c).

Definition bind {A B} (m : M A) (k : A -> M B) : M B :=
  fun c =>
    match m c with
    | Done (a, c') => k a c'
    | Panic i n => Panic i n
    | Unmodelled => Unmodelled
    end.

Declare Scope pop3_scope.
Delimit Scope pop3_scope with pop3.
Notation "x <- m ;; k" := (bind m (fun x => k))
  (at level 61, m at next level, right associativity) : pop3_scope.
Notation "' p <- m ;; k" := (bind m (fun x => let 'p := x in k))
  (at level 61, p pattern, m at next level, right associativity) : pop3_scope.
Local Open Scope pop3_scope.

(** [a[i]] on a slice: a panic outside its bounds. *)
Definition index {A} (a : list A) (i : nat) : M A :=
  fun c =>
    match nth_error a i with
    | Some x => Done (x, c)
    | None => Panic i (List.length a)
    end.

(** [a[1:]]: a panic on the empty slice. *)
Definition slice1 {A} (a : list A) : M (list A) :=
  fun c =>
    match a with
    | _ :: t => Done (t, c)
    | [] => Panic 1 0
    end.

(** [a[i] = v] *)
Fixpoint set {A} (a : list A) (i : nat) (v : A) : option (list A) :=
  match a, i with
  | [], _ => None
  | _ :: t, O => Some (v :: t)
  | x :: t, S i' => option_map (List.cons x) (set t i' v)
  end.

Definition store {A} (a : list A) (i : nat) (v : A) : M (list A) :=
  fun c =>
    match set a i v with
    | Some a' => Done (a', c)
    | None => Panic i (List.length a)
    end.

(** [fmt.Fprintf(c.conn, format, args...)] *)
Definition Fprintf (format : string) (args : list Fmt.arg) : M unit :=
  fun c =>
    match Fmt.Sprintf format args with
    | Some text => Done (tt, mkClient (conn c ++ text) (bin c) (binErr c))
    | None => Unmodelled
    end.

(** [c.bin.ReadLine()], the [isPrefix] result left out. *)
Definition ReadLine : M (string * option error) :=
  fun c =>
    match bin c with
    | l :: rest => Done ((l, None), mkClient (conn c) rest (binErr c))
    | [] => Done (("", Some (binErr c)), c)
    end.

(** [l[0] != '+'], for a non-empty [l]. *)
Definition firstIsNot (ch : ascii) (l : string) : M bool :=
  fun c =>
    match l with
    | String c0 _ => Done (negb (Ascii.eqb c0 ch), c)
    | EmptyString => Panic 0 0
    end.

(** func (c * Client) Cmd(format string, args ...interface{}) (string, error) *)
Definition Cmd (format : string) (args : list Fmt.arg) : M (string * option error) :=
  let format := if negb (format =? "")%string then format ++ CRLF else format in
  _ <- Fprintf format args ;;
  '(line, err) <- ReadLine ;;
  match err with
  | Some e => ret ("", Some e)
  | None =>
    let l := line in
    let split := Strings.SplitN l " " 2 in
    let last := if (List.length split =? 2)%nat then nth 1 split "" else l in
    bad <- firstIsNot "+" l ;;
    if bad then ret ("", Some (errorString last))
    else ret (last, None)
  end.

(** The loop of ReadLines, entered with [err == nil]: [lines] is the
    result so far, [line] the line just read and [rest] what the reader
    still holds.  It returns the lines, what is left in the reader, and
    whether the loop ended on a failed read. *)
Fixpoint readLoop (rest : list string) (lines : list string) (line : string)
  : list string * list string * bool :=
  if (line =? ".")%string then (lines, rest, false)
  else
    let line :=
      if (0 <? String.length line)%nat
         && match String.get 0 line with
            | Some c0 => Ascii.eqb c0 "."
            | None => false
            end
      then drop 1 line else line in
    let lines := (lines ++ [line])%list in
    match rest with
    | [] => (lines, [], true)
    | l :: rest' => readLoop rest' lines l
    end.

(** func (c * Client) ReadLines() (lines []string, err error) *)
Definition ReadLines : M (list string * option error) :=
  fun c =>
    match bin c with
    | [] => Done (([], Some (binErr c)), c)
    | l :: rest =>
      let '(lines, rest', failed) := readLoop rest [] l in
      Done ((lines, if failed then Some (binErr c) else None),
            mkClient (conn c) rest' (binErr c))
    end.

(** func (c * Client) Caps() (caps []string, err error) *)
Definition Caps : M (list string * option error) :=
  _ <- Cmd "CAPA" [] ;;
  ReadLines.

(** The first loop of Auth over the capabilities; a nil [sasl] is [None]. *)
Fixpoint scanCaps (caps : list string) (sasl : option (list string)) (plain : bool)
  : M (option (list string) * bool) :=
  match caps with
  | [] => ret (sasl, plain)
  | c :: caps' =>
    if Strings.HasPrefix c "SASL" then
      sasl' <- slice1 (Strings.Split c " ") ;;
      scanCaps caps' (Some sasl') plain
    else if (c =? "PLAIN")%string then scanCaps caps' sasl true
    else scanCaps caps' sasl plain
  end.

(** The body run for the entry "CRAM-MD5" of [sasl] (it always returns). *)
Definition authCRAMMD5 (username password : string) : M (option error) :=
  '(line, err) <- Cmd "AUTH CRAM-MD5" [] ;;
  match err with
  | Some e => ret (Some e)
  | None =>
    let '(chal, err) := Base64.DecodeString line in
    match err with
    | Some e => ret (Some e)
    | None =>
      let auth := CRAMMD5Next username password chal in
      let response := Base64.EncodeToString auth in
      '(_, err) <- Cmd response [] ;;
      ret err
    end
  end.

(** The second loop of Auth, over [sasl]; [after] is the code that follows
    the loop. *)
Fixpoint rangeSasl (username password : string) (sasl : list string)
    (after : M (option error)) : M (option error) :=
  match sasl with
  | [] => after
  | v :: sasl' =>
    if (v =? "CRAM-MD5")%string then authCRAMMD5 username password
    else rangeSasl username password sasl' after
  end.

(** The branch [if plain] of Auth. *)
Definition authPlain (username password : string) : M (option error) :=
  '(_, err) <- Cmd "AUTH %s %s"
      [Fmt.Str username; Fmt.Str (Base64.EncodeToString (bytesOf password))] ;;
  ret err.

(** func (c * Client) Auth(username, password string) error *)
Definition Auth (username password : string) : M (option error) :=
  '(caps, err) <- Caps ;;
  '(sasl, plain) <- scanCaps caps None false ;;
  let after :=
    if plain : bool then authPlain username password
    else ret (Some (errorString "No supported auth methods found.")) in
  match sasl with
  | Some sasl => rangeSasl username password sasl after
  | None => after
  end.

(** func (c * Client) Stat() (count, size int, err error) *)
Definition Stat : M (Z * Z * option error) :=
  '(l, err) <- Cmd "STAT" [] ;;
  match err with
  | Some e => ret (0, 0, Some e)
  | None =>
    let parts := Strings.Fields l in
    p0 <- index parts 0 ;;
    let '(count, err) := Strconv.Atoi p0 in
    match err with
    | Some _ => ret (0, 0, Some (errorString "Invalid server response"))
    | None =>
      p1 <- index parts 1 ;;
      let '(size, err) := Strconv.Atoi p1 in
      match err with
      | Some _ => ret (0, 0, Some (errorString "Invalid server response"))
      | None => ret (count, size, None)
      end
    end
  end.

(** func (c * Client) List(msg int) (size int, err error) *)
Definition List (msg : Z) : M (Z * option error) :=
  '(l, err) <- Cmd "LIST %d" [Fmt.Int msg] ;;
  match err with
  | Some e => ret (0, Some e)
  | None =>
    f1 <- index (Strings.Fields l) 1 ;;
    let '(size, err) := Strconv.Atoi f1 in
    match err with
    | Some _ => ret (0, Some (errorString "Invalid server response"))
    | None => ret (size, None)
    end
  end.

(** The loop of ListAll over [lines], from index [i] on. *)
Fixpoint listAllLoop (lines : list string) (i : nat) (msgs sizes : list Z)
  : M (list Z * list Z * option error) :=
  match lines with
  | [] => ret (msgs, sizes, None)
  | l :: lines' =>
    let fs := Strings.Fields l in
    f0 <- index fs 0 ;;
    let '(m, err) := Strconv.Atoi f0 in
    match err with
    | Some e => ret (msgs, sizes, Some e)
    | None =>
      f1 <- index fs 1 ;;
      let '(s, err) := Strconv.Atoi f1 in
      match err with
      | Some e => ret (msgs, sizes, Some e)
      | None =>
        msgs' <- store msgs i m ;;
        sizes' <- store sizes i s ;;
        listAllLoop lines' (S i) msgs' sizes'
      end
    end
  end.

(** func (c * Client) ListAll() (msgs []int, sizes []int, err error) *)
Definition ListAll : M (list Z * list Z * option error) :=
  '(_, err) <- Cmd "LIST" [] ;;
  match err with
  | Some e => ret ([], [], Some e)
  | None =>
    '(lines, err) <- ReadLines ;;
    match err with
    | Some e => ret ([], [], Some e)
    | None =>
      let msgs := repeat 0 (List.length lines) in
      let sizes := repeat 0 (List.length lines) in
      listAllLoop lines 0 msgs sizes
    end
  end.

(** func (c * Client) Retr(msg int) (text string, err error) *)
Definition Retr (msg : Z) : M (string * option error) :=
  '(_, err) <- Cmd "RETR %d" [Fmt.Int msg] ;;
  match err with
  | Some e => ret ("", Some e)
  | None =>
    '(lines, err) <- ReadLines ;;
    ret (Strings.Join lines LF, err)
  end.

(** func (c * Client) Dele(msg int) (err error) *)
Definition Dele (msg : Z) : M (option error) :=
  '(_, err) <- Cmd "DELE %d" [Fmt.Int msg] ;; ret err.

(** func (c * Client) Noop() (err error) *)
Definition Noop : M (option error) :=
  '(_, err) <- Cmd "NOOP" [] ;; ret err.

(** func (c * Client) Rset() (err error) *)
Definition Rset : M (option error) :=
  '(_, err) <- Cmd "RSET" [] ;; ret err.

(** func NewClient(conn net.Conn) ( * Client, error): the connection is
    given by what the server will send ([lines], then [e] on every read);
    a nil client is [None]. *)
Definition NewClient (lines : list string) (e : error)
  : outcome (option Client * option error) :=
  match Cmd "" [] (mkClient "" lines e) with
  | Done ((_, Some err), _) => Done (None, Some err)
  | Done ((_, None), client) => Done (Some client, None)
  | Panic i n => Panic i n
  | Unmodelled => Unmodelled
  end.

(** func (c * Client) Quit() error.  The Boolean of the result tells
    whether [c.conn.Close()] was called; what a closed connection does
    afterwards is not modelled. *)
Definition Quit : M (option error * bool) :=
  '(_, err) <- Cmd "QUIT" [] ;;
  match err with
  | Some e => ret (Some e, false)
  | None => ret (None, true)
  end.

End Pop3.

(** * Properties of the client *)

Import Pop3.
Local Open Scope pop3_scope.

(** ** Definitions used to state them *)

(** The format Cmd hands to Fprintf: a non-empty format gets CRLF appended,
    the empty one is passed on as it is. *)
Definition wire (format : string) : string :=
  if negb (format =? "")%string then format ++ CRLF else format.

(** The text after the first space of a line, if it has one. *)
Fixpoint afterFirstSpace (l : string) : option string :=
  match l with
  | EmptyString => None
  | String c t => if Ascii.eqb c " " then Some t else afterFirstSpace t
  end.

(** The remainder of a status line: what follows its first space, or the
    whole line if it has none. *)
Definition remainder (l : string) : string :=
  match afterFirstSpace l with
  | Some r => r
  | None => l
  end.

(** A format without any '%': formatting leaves it as it is. *)
Fixpoint noPercent (s : string) : bool :=
  match s with
  | EmptyString => true
  | String c t => negb (Ascii.eqb c "%") && noPercent t
  end.

(** Undoing byte-stuffing the way ReadLines does: one leading dot goes. *)
Definition stripOneDot (l : string) : string :=
  match l with
  | String c t => if Ascii.eqb c "." then t else l
  | EmptyString => l
  end.

(** The SASL mechanism list of a capability list: the words after the tag
    of its last entry that starts with "SASL"; empty without such an entry. *)
Definition saslMechanisms (caps : list string) : list string :=
  match find (fun c => Strings.HasPrefix c "SASL") (rev caps) with
  | Some c => tl (Strings.Split c " ")
  | None => []
  end.

Definition hasCRAMMD5 (caps : list string) : bool :=
  existsb (fun v => (v =? "CRAM-MD5")%string) (saslMechanisms caps).

(** The plain-auth flag: some entry is exactly "PLAIN". *)
Definition hasPLAIN (caps : list string) : bool :=
  existsb (fun c => (c =? "PLAIN")%string) caps.

(** The branch of Auth a capability list selects: the CRAM-MD5 exchange if
    the mechanism list has "CRAM-MD5", else the plain exchange if the flag is
    set, else the error of an unsupported authentication. *)
Definition authBranch (u p : string) (caps : list string) : M (option error) :=
  if hasCRAMMD5 caps then authCRAMMD5 u p
  else if hasPLAIN caps then authPlain u p
  else ret (Some (errorString "No supported auth methods found.")).

(** The server in the examples: it sends [lines] and then closes. *)
Definition server (lines : list string) : Client :=
  mkClient "" lines (ioError "EOF").


(** The two integers ListAll reads off a line: its first two fields, when
    both are accepted by Atoi. *)
Definition parseLine (l : string) : option (Z * Z) :=
  match Strings.Fields l with
  | f0 :: f1 :: _ =>
    match Strconv.Atoi f0, Strconv.Atoi f1 with
    | (m, None), (s, None) => Some (m, s)
    | _, _ => None
    end
  | _ => None
  end.

(** The status a single-line command returns for the reply [l]. *)
Definition statusOf (l : string) : option error :=
  if Strings.HasPrefix l "+" then None else Some (errorString (remainder l)).

(** A format whose directives are matched one for one by the operands:
    every [%s], [%d] and [%v] has its operand, [%%] takes none, no operand
    is left over and no '%' stands without a verb. *)
Fixpoint fits (format : string) (args : list Fmt.arg) : bool :=
  match format with
  | EmptyString => match args with [] => true | _ :: _ => false end
  | String c t =>
    if Ascii.eqb c "%" then
      match t with
      | EmptyString => false
      | String v t' =>
        if Ascii.eqb v "%" then fits t' args
        else if Fmt.isVerb v then
          match args with
          | [] => false
          | _ :: args' => fits t' args'
          end
        else false
      end
    else fits t args
  end.

(** The mechanism list as the specification words it (section 4.3): the
    entries prefixed "SASL", split on whitespace, with the tag dropped. *)
Definition specMechanisms (caps : list string) : list string :=
  flat_map (fun c => tl (Strings.Fields c))
           (filter (fun c => Strings.HasPrefix c "SASL") caps).





(** ** The models of the library functions on known values *)

Example Fields_examples :
  Strings.Fields " 5  2048 " = ["5"; "2048"]
  /\ Strings.Fields "" = []
  /\ Strings.Fields ("1" ++ String (byteOf 0xC2) (String (byteOf 0xA0) "a")) = ["1"; "a"].
Proof. repeat split; reflexivity. Qed.

Example SplitN_examples :
  Strings.SplitN "+OK 5 2048" " " 2 = ["+OK"; "5 2048"]
  /\ Strings.SplitN "+OK" " " 2 = ["+OK"]
  /\ Strings.Split "SASL CRAM-MD5 PLAIN" " " = ["SASL"; "CRAM-MD5"; "PLAIN"]
  /\ Strings.Split "" " " = [""].
Proof. repeat split; reflexivity. Qed.

Example Atoi_examples :
  Strconv.Atoi "2048" = (2048, None)
  /\ Strconv.Atoi "-12" = (-12, None)
  /\ Strconv.Atoi "abc" = (0, Some (NumError "Atoi" "abc" ErrSyntax))
  /\ Strconv.Atoi "" = (0, Some (NumError "Atoi" "" ErrSyntax))
  /\ Strconv.Atoi "9223372036854775808"
     = (9223372036854775807, Some (NumError "Atoi" "9223372036854775808" ErrRange)).
Proof. repeat split; reflexivity. Qed.

Example Sprintf_examples :
  Fmt.Sprintf "LIST %d" [Fmt.Int 3] = Some "LIST 3"
  /\ Fmt.Sprintf "AUTH %s %s" [Fmt.Str "bob"; Fmt.Str "eA=="] = Some "AUTH bob eA=="
  /\ Fmt.Sprintf "100%%" [] = Some "100%"
  /\ Fmt.Sprintf "100%" [] = Some "100%!(NOVERB)"
  /\ Fmt.Sprintf "%5d" [Fmt.Int 3] = None.
Proof. repeat split; reflexivity. Qed.

Example base64_examples :
  Base64.EncodeToString (bytesOf "foobar") = "Zm9vYmFy"
  /\ Base64.EncodeToString (bytesOf "fo") = "Zm8="
  /\ Base64.DecodeString "Zm8=" = (bytesOf "fo", None)
  /\ Base64.DecodeString "Zg=" = ([], Some (CorruptInputError 3)).
Proof. repeat split; vm_compute; reflexivity. Qed.

(** RFC 1321 and RFC 2202 test vectors, and the exchange of RFC 2195. *)
Example md5_examples :
  hex (MD5.Sum (bytesOf "abc")) = "900150983cd24fb0d6963f7d28e17f72"
  /\ hex (MD5.HMAC (repeat 0x0b 16) (bytesOf "Hi There"))
     = "9294727a3638bb1c13f48ef8158bfc9d"
  /\ stringOf (CRAMMD5Next "tim" "tanstaaftanstaaf"
                 (bytesOf "<1896.697170952@postoffice.reston.mci.net>"))
     = "tim b913a602c7eda7a495b4e6e7334d3890".
Proof. repeat split; vm_compute; reflexivity. Qed.

(** ** Cmd *)

Lemma cutByte_afterFirstSpace (l : string) :
  afterFirstSpace l = option_map snd (Strings.cutByte " " l).
Proof.
  induction l as [|c t IH]; simpl; [reflexivity|].
  destruct (Ascii.eqb c " "); [reflexivity|].
  rewrite IH. destruct (Strings.cutByte " " t) as [[a b]|]; reflexivity.
Qed.

(** The value of [last] in Cmd is the remainder of the line. *)
Lemma Cmd_last (l : string) :
  (let split := Strings.SplitN l " " 2 in
   if (List.length split =? 2)%nat then nth 1 split "" else l) = remainder l.
Proof.
  unfold remainder. rewrite cutByte_afterFirstSpace.
  unfold Strings.SplitN. simpl.
  destruct (Strings.cutByte " " l) as [[a b]|]; reflexivity.
Qed.

Lemma HasPrefix_plus (c0 : ascii) (t : string) :
  Strings.HasPrefix (String c0 t) "+" = Ascii.eqb c0 "+".
Proof. destruct t; simpl; apply andb_true_r. Qed.

(** Cmd on a non-empty status line. *)
Lemma Cmd_status format args text c l rest :
  Fmt.Sprintf (wire format) args = Some text ->
  bin c = l :: rest ->
  l <> "" ->
  Cmd format args c =
    Done (if Strings.HasPrefix l "+"
          then (remainder l, None)
          else ("", Some (errorString (remainder l))),
          mkClient (conn c ++ text) rest (binErr c)).
Proof.
  intros Hf Hb Hl.
  unfold Cmd. fold (wire format).
  unfold bind at 1. unfold Fprintf. rewrite Hf.
  unfold bind at 1. unfold ReadLine. cbn [bin conn binErr]. rewrite Hb.
  rewrite Cmd_last.
  destruct l as [|c0 t]; [congruence|].
  rewrite HasPrefix_plus.
  unfold bind, firstIsNot, ret.
  destruct (Ascii.eqb c0 "+"); reflexivity.
Qed.

(** Cmd when the read fails. *)
Lemma Cmd_read_error format args text c :
  Fmt.Sprintf (wire format) args = Some text ->
  bin c = [] ->
  Cmd format args c =
    Done (("", Some (binErr c)), mkClient (conn c ++ text) [] (binErr c)).
Proof.
  intros Hf Hb.
  unfold Cmd. fold (wire format).
  unfold bind at 1. unfold Fprintf. rewrite Hf.
  unfold bind, ReadLine. cbn [bin conn binErr]. rewrite Hb. reflexivity.
Qed.

(** Cmd on an empty status line. *)
Lemma Cmd_empty format args text c rest :
  Fmt.Sprintf (wire format) args = Some text ->
  bin c = "" :: rest ->
  Cmd format args c = Panic 0 0.
Proof.
  intros Hf Hb.
  unfold Cmd. fold (wire format).
  unfold bind at 1. unfold Fprintf. rewrite Hf.
  unfold bind, ReadLine. cbn [bin conn binErr]. rewrite Hb. reflexivity.
Qed.

Lemma noPercent_app (a b : string) :
  noPercent (a ++ b) = noPercent a && noPercent b.
Proof.
  induction a as [|c t IH]; simpl; [reflexivity|].
  rewrite IH. apply andb_assoc.
Qed.

Lemma doPrintf_noPercent (f : string) :
  noPercent f = true -> Fmt.doPrintf f [] = Some f.
Proof.
  induction f as [|c t IH]; simpl; [reflexivity|].
  intros H. apply andb_true_iff in H. destruct H as [Hc Ht].
  apply negb_true_iff in Hc. rewrite Hc, (IH Ht). reflexivity.
Qed.

Lemma Sprintf_wire_noPercent (f : string) :
  noPercent f = true -> Fmt.Sprintf (wire f) [] = Some (wire f).
Proof.
  intros H. apply doPrintf_noPercent.
  unfold wire. destruct (negb (f =? "")%string); [|exact H].
  rewrite noPercent_app, H. reflexivity.
Qed.

(** C1 (the code departs from the claim).  The claim asks that an empty
    status line be rejected with an error before its first character is
    indexed.  Cmd has no such guard: whenever the line it reads is empty,
    [l[0]] is evaluated on the empty string and the call panics with
    "index out of range [0] with length 0" instead of returning an error. *)
Theorem Cmd_empty_line_panics :
  forall format args text c rest,
    Fmt.Sprintf (wire format) args = Some text ->
    bin c = "" :: rest ->
    Cmd format args c = Panic 0 0.
Proof.
  intros format args text c rest Hf Hb.
  exact (Cmd_empty format args text c rest Hf Hb).
Qed.

(** The handshake probe against a server whose greeting is an empty line. *)
Lemma Cmd_empty_line_panics_witness :
  Fmt.Sprintf (wire "") [] = Some ""
  /\ bin (server [""]) = [""]
  /\ Cmd "" [] (server [""]) = Panic 0 0.
Proof.
  split; [reflexivity|]. split; [reflexivity|].
  apply (Cmd_empty_line_panics "" [] "" (server [""]) []); reflexivity.
Defined.

(** C2.  For every non-empty status line [l] read by Cmd: if [l] starts
    with '+', Cmd returns as payload the remainder of [l] after its first
    space-delimited token (all of [l] if it has no space) and no error;
    otherwise it returns the empty payload and an error whose message is
    that same remainder. *)
Theorem Cmd_status_line :
  forall format args text c l rest,
    Fmt.Sprintf (wire format) args = Some text ->
    bin c = l :: rest ->
    l <> "" ->
    Cmd format args c =
      Done (if Strings.HasPrefix l "+"
            then (remainder l, None)
            else ("", Some (errorString (remainder l))),
            mkClient (conn c ++ text) rest (binErr c)).
Proof.
  intros format args text c l rest Hf Hb Hl.
  exact (Cmd_status format args text c l rest Hf Hb Hl).
Qed.

Lemma Cmd_status_line_witness :
  Cmd "STAT" [] (server ["+OK 5 2048"])
    = Done (("5 2048", None), mkClient ("STAT" ++ CRLF) [] (ioError "EOF"))
  /\ Cmd "DELE %d" [Fmt.Int 7] (server ["-ERR no such message"])
    = Done (("", Some (errorString "no such message")),
            mkClient ("DELE 7" ++ CRLF) [] (ioError "EOF"))
  /\ Cmd "NOOP" [] (server ["-ERR"])
    = Done (("", Some (errorString "-ERR")),
            mkClient ("NOOP" ++ CRLF) [] (ioError "EOF")).
Proof.
  split; [|split].
  - apply (Cmd_status_line "STAT" [] ("STAT" ++ CRLF) (server ["+OK 5 2048"])
             "+OK 5 2048" []); [reflexivity | reflexivity | discriminate].
  - apply (Cmd_status_line "DELE %d" [Fmt.Int 7] ("DELE 7" ++ CRLF)
             (server ["-ERR no such message"]) "-ERR no such message" []);
      [reflexivity | reflexivity | discriminate].
  - apply (Cmd_status_line "NOOP" [] ("NOOP" ++ CRLF) (server ["-ERR"]) "-ERR" []);
      [reflexivity | reflexivity | discriminate].
Defined.

(** C9 as stated fails: for the empty commandText Cmd writes nothing at all
    (the guard [format != ""] keeps the CRLF off), so it is not true that
    every run of [Cmd("")] leaves a CRLF on the connection. *)
Lemma Cmd_probe_writes_no_CRLF :
  ~ (forall c r c', Cmd "" [] c = Done (r, c') -> conn c' = conn c ++ CRLF).
Proof.
  intros H.
  specialize (H (server ["+OK ready"]) ("ready", None)
                (mkClient "" [] (ioError "EOF")) eq_refl).
  discriminate H.
Qed.

Lemma append_empty_r (a : string) : a ++ "" = a.
Proof. induction a as [|c t IH]; [reflexivity|]. cbn. rewrite IH. reflexivity. Qed.

Lemma append_assoc_s (a b c : string) : (a ++ b) ++ c = a ++ b ++ c.
Proof. induction a as [|x t IH]; [reflexivity|]. cbn. rewrite IH. reflexivity. Qed.

(** With matched operands, text appended to a format comes out appended to
    the formatted text. *)
Lemma doPrintf_fits (n : nat) :
  forall f args,
    (String.length f <= n)%nat ->
    fits f args = true ->
    exists text,
      Fmt.doPrintf f args = Some text
      /\ forall tail, noPercent tail = true ->
                      Fmt.doPrintf (f ++ tail) args = Some (text ++ tail).
Proof.
  induction n as [|n IH]; intros f args Hlen Hfits.
  - destruct f; [|cbn in Hlen; lia].
    destruct args; [|discriminate Hfits].
    exists "". split; [reflexivity|]. intros tail Ht. exact (doPrintf_noPercent tail Ht).
  - destruct f as [|c t].
    + destruct args; [|discriminate Hfits].
      exists "". split; [reflexivity|]. intros tail Ht. exact (doPrintf_noPercent tail Ht).
    + cbn [fits] in Hfits. cbn [append Fmt.doPrintf].
      destruct (Ascii.eqb c "%").
      * destruct t as [|v t']; [discriminate Hfits|]. cbn [append].
        destruct (Ascii.eqb v "%").
        { destruct (IH t' args) as (text & H1 & H2); [cbn in Hlen; lia | exact Hfits |].
          exists (String "%" text). rewrite H1. split; [reflexivity|].
          intros tail Ht. rewrite (H2 tail Ht). reflexivity. }
        destruct (Fmt.isVerb v); [|discriminate Hfits].
        destruct args as [|a args']; [discriminate Hfits|].
        destruct (IH t' args') as (text & H1 & H2); [cbn in Hlen; lia | exact Hfits |].
        exists (Fmt.printArg a v ++ text). rewrite H1. split; [reflexivity|].
        intros tail Ht. rewrite (H2 tail Ht). cbn. rewrite append_assoc_s. reflexivity.
      * destruct (IH t args) as (text & H1 & H2); [cbn in Hlen; lia | exact Hfits |].
        exists (String c text). rewrite H1. split; [reflexivity|].
        intros tail Ht. rewrite (H2 tail Ht). reflexivity.
Qed.

(** What Cmd hands to the connection, for matched operands. *)
Lemma Sprintf_wire_fits (format : string) (args : list Fmt.arg) (text : string) :
  Fmt.Sprintf format args = Some text ->
  fits format args = true ->
  Fmt.Sprintf (wire format) args
  = Some (if (format =? "")%string then "" else text ++ CRLF).
Proof.
  intros Hs Hf. unfold wire.
  destruct (String.eqb_spec format "") as [->|Hne]; cbn [negb].
  - destruct args; [reflexivity | discriminate Hf].
  - destruct (doPrintf_fits (String.length format) format args (le_n _) Hf)
      as (text0 & H1 & H2).
    unfold Fmt.Sprintf in *. rewrite H1 in Hs. injection Hs as <-.
    exact (H2 CRLF eq_refl).
Qed.

(** The bare probe writes the empty text, that is nothing. *)
Lemma Cmd_after_write (format : string) (args : list Fmt.arg) (text : string)
    (c : Client) :
  Fmt.Sprintf (wire format) args = Some text ->
  Cmd format args c = Cmd "" [] (mkClient (conn c ++ text) (bin c) (binErr c)).
Proof.
  intros Hw.
  set (c2 := mkClient (conn c ++ text) (bin c) (binErr c)).
  destruct (bin c) as [|l rest] eqn:Hb.
  - rewrite (Cmd_read_error format args text c Hw Hb).
    rewrite (Cmd_read_error "" [] "" c2 eq_refl eq_refl).
    cbn [conn binErr c2]. rewrite append_empty_r. reflexivity.
  - destruct l as [|c0 t].
    + rewrite (Cmd_empty format args text c rest Hw Hb).
      rewrite (Cmd_empty "" [] "" c2 rest eq_refl eq_refl). reflexivity.
    + rewrite (Cmd_status format args text c (String c0 t) rest Hw Hb
                 ltac:(discriminate)).
      rewrite (Cmd_status "" [] "" c2 (String c0 t) rest eq_refl eq_refl
                 ltac:(discriminate)).
      cbn [conn binErr c2]. rewrite append_empty_r. reflexivity.
Qed.

(** C9, amended.  Cmd first writes to the transport and then reads and
    classifies one line, writing nothing more.  For the empty commandText
    (the handshake probe, no operands) nothing at all is written; for
    every non-empty commandText whose directives are matched one for one
    by its operands, the formatted commandText followed by CRLF is
    written.  The rest of the call is what the bare probe does on the
    connection so written; the probe never adds a byte; and when the line
    read is not empty Cmd returns with exactly these bytes added. *)
Theorem Cmd_writes :
  forall format args text c,
    Fmt.Sprintf format args = Some text ->
    fits format args = true ->
    let written :=
      if (format =? "")%string then conn c else conn c ++ text ++ CRLF in
    Cmd format args c = Cmd "" [] (mkClient written (bin c) (binErr c))
    /\ (forall r c', Cmd "" [] c = Done (r, c') -> conn c' = conn c)
    /\ (hd_error (bin c) <> Some "" ->
        exists r c',
          Cmd format args c = Done (r, c')
          /\ bin c' = tl (bin c)
          /\ conn c' = written).
Proof.
  intros format args text c Hs Hf written.
  pose proof (Sprintf_wire_fits format args text Hs Hf) as Hw.
  assert (Hwr : conn c ++ (if (format =? "")%string then "" else text ++ CRLF)
                = written).
  { unfold written. destruct (format =? "")%string; [apply append_empty_r | reflexivity]. }
  split; [|split].
  - rewrite (Cmd_after_write format args _ c Hw), Hwr. reflexivity.
  - intros r c' H.
    destruct (bin c) as [|l rest] eqn:Hb.
    + rewrite (Cmd_read_error "" [] "" c eq_refl Hb) in H.
      injection H as _ <-. apply append_empty_r.
    + destruct l as [|c0 t].
      * rewrite (Cmd_empty "" [] "" c rest eq_refl Hb) in H. discriminate H.
      * rewrite (Cmd_status "" [] "" c (String c0 t) rest eq_refl Hb
                   ltac:(discriminate)) in H.
        injection H as _ <-. apply append_empty_r.
  - intros Hh. destruct (bin c) as [|l rest] eqn:Hb.
    + eexists. eexists. split; [apply (Cmd_read_error format args _ c Hw Hb)|].
      cbn [bin conn tl]. split; [reflexivity | exact Hwr].
    + assert (Hl : l <> "") by (intros ->; apply Hh; reflexivity).
      eexists. eexists. split; [apply (Cmd_status format args _ c l rest Hw Hb Hl)|].
      cbn [bin conn tl]. split; [reflexivity | exact Hwr].
Qed.

Lemma Cmd_writes_witness :
  (exists r c',
     Cmd "" [] (server ["+OK ready"]) = Done (r, c')
     /\ bin c' = [] /\ conn c' = "")
  /\ (exists r c',
     Cmd "QUIT" [] (server ["+OK bye"]) = Done (r, c')
     /\ bin c' = [] /\ conn c' = "QUIT" ++ CRLF)
  /\ (exists r c',
     Cmd "LIST %d" [Fmt.Int 3] (server ["+OK 3 512"]) = Done (r, c')
     /\ bin c' = [] /\ conn c' = "LIST 3" ++ CRLF)
  /\ (exists r c',
     Cmd "AUTH %s %s" [Fmt.Str "bob"; Fmt.Str "eA=="] (server ["+OK"]) = Done (r, c')
     /\ bin c' = [] /\ conn c' = "AUTH bob eA==" ++ CRLF)
  /\ Cmd "RETR %d" [Fmt.Int 7] (server [""])
     = Cmd "" [] (mkClient ("RETR 7" ++ CRLF) [""] (ioError "EOF")).
Proof.
  split; [|split; [|split; [|split]]].
  - apply (Cmd_writes "" [] "" (server ["+OK ready"]));
      [reflexivity | reflexivity | discriminate].
  - apply (Cmd_writes "QUIT" [] "QUIT" (server ["+OK bye"]));
      [reflexivity | reflexivity | discriminate].
  - apply (Cmd_writes "LIST %d" [Fmt.Int 3] "LIST 3" (server ["+OK 3 512"]));
      [reflexivity | reflexivity | discriminate].
  - apply (Cmd_writes "AUTH %s %s" [Fmt.Str "bob"; Fmt.Str "eA=="] "AUTH bob eA=="
             (server ["+OK"]));
      [reflexivity | reflexivity | discriminate].
  - apply (Cmd_writes "RETR %d" [Fmt.Int 7] "RETR 7" (server [""]));
      reflexivity.
Defined.

(** An operand without a directive is reported after the CRLF: the text
    written does not end the line. *)
Example Cmd_extra_operand :
  Cmd "NOOP" [Fmt.Int 5] (server ["+OK"])
  = Done (("+OK", None),
          mkClient ("NOOP" ++ CRLF ++ "%!(EXTRA int=5)") [] (ioError "EOF")).
Proof. reflexivity. Qed.

(** A directive in the commandText is formatted, not copied. *)
Example Cmd_formats_commandText :
  Cmd "a%%" [] (server ["+OK"])
  = Done (("+OK", None), mkClient ("a%" ++ CRLF) [] (ioError "EOF")).
Proof. reflexivity. Qed.

(** ** ReadLines *)

Lemma readLoop_eq rest lines line :
  readLoop rest lines line =
    if (line =? ".")%string then (lines, rest, false)
    else
      let line' :=
        if (0 <? String.length line)%nat
           && match String.get 0 line with
              | Some c0 => Ascii.eqb c0 "."
              | None => false
              end
        then drop 1 line else line in
      match rest with
      | [] => ((lines ++ [line'])%list, [], true)
      | l :: rest' => readLoop rest' (lines ++ [line'])%list l
      end.
Proof. destruct rest; reflexivity. Qed.

(** What the body of the loop does to a line is [stripOneDot]. *)
Lemma unstuff_stripOneDot (line : string) :
  (if (0 <? String.length line)%nat
      && match String.get 0 line with
         | Some c0 => Ascii.eqb c0 "."
         | None => false
         end
   then drop 1 line else line) = stripOneDot line.
Proof.
  destruct line as [|c t]; [reflexivity|].
  cbn. destruct (Ascii.eqb c "."); reflexivity.
Qed.

(** The loop over a block: lines other than ".", then the terminator. *)
Lemma readLoop_block (ls : list string) :
  forall acc l rest,
    l <> "." ->
    Forall (fun x => x <> ".") ls ->
    readLoop (ls ++ "." :: rest) acc l
    = ((acc ++ map stripOneDot (l :: ls))%list, rest, false).
Proof.
  induction ls as [|x ls IH]; intros acc l rest Hl Hls.
  - rewrite readLoop_eq.
    destruct (String.eqb_spec l "."); [contradiction|].
    cbv zeta. rewrite unstuff_stripOneDot. cbn [List.app].
    rewrite readLoop_eq. reflexivity.
  - rewrite readLoop_eq.
    destruct (String.eqb_spec l "."); [contradiction|].
    cbv zeta. rewrite unstuff_stripOneDot. cbn [List.app].
    inversion Hls as [|? ? Hx Hls']; subst.
    rewrite (IH _ x rest Hx Hls').
    rewrite <- app_assoc. reflexivity.
Qed.

Lemma ReadLines_block (ls rest : list string) (out : string) (e : error) :
  Forall (fun x => x <> ".") ls ->
  ReadLines (mkClient out (ls ++ "." :: rest) e)
  = Done ((map stripOneDot ls, None), mkClient out rest e).
Proof.
  intros H. unfold ReadLines. cbn [bin conn binErr].
  destruct ls as [|l ls].
  - cbn [List.app]. rewrite readLoop_eq. reflexivity.
  - cbn [List.app]. inversion H as [|? ? Hl Hls]; subst.
    rewrite (readLoop_block ls [] l rest Hl Hls). reflexivity.
Qed.

Lemma stripOneDot_no_dot (l : string) :
  Strings.HasPrefix l "." = false -> stripOneDot l = l.
Proof.
  destruct l as [|c t]; [reflexivity|].
  unfold stripOneDot. intros H.
  assert (Hc : Ascii.eqb c "." = false).
  { destruct (Ascii.eqb c ".") eqn:E; [|reflexivity].
    destruct t; simpl in H; rewrite E in H; discriminate. }
  rewrite Hc. reflexivity.
Qed.

(** C3.  For every finite sequence of lines none of which equals "." or
    starts with ".", ReadLines over those lines followed by the terminator
    "." returns exactly those lines, in order, with no error; the
    terminator is consumed and is not part of the output. *)
Theorem ReadLines_roundtrip :
  forall (ls rest : list string) (out : string) (e : error),
    Forall (fun l => l <> "." /\ Strings.HasPrefix l "." = false) ls ->
    ReadLines (mkClient out (ls ++ "." :: rest) e)
    = Done ((ls, None), mkClient out rest e).
Proof.
  intros ls rest out e H.
  rewrite ReadLines_block.
  - replace (map stripOneDot ls) with ls; [reflexivity|].
    induction H as [|l ls [_ Hl] _ IH]; [reflexivity|].
    cbn [map]. rewrite (stripOneDot_no_dot l Hl), <- IH. reflexivity.
  - eapply Forall_impl; [|exact H]. intros l [Hl _]. exact Hl.
Qed.

Lemma ReadLines_roundtrip_witness :
  ReadLines (server ["1 120"; ""; "3 77"; "."; "+OK"])
  = Done ((["1 120"; ""; "3 77"], None), mkClient "" ["+OK"] (ioError "EOF")).
Proof.
  apply (ReadLines_roundtrip ["1 120"; ""; "3 77"] ["+OK"] "" (ioError "EOF")).
  repeat constructor; discriminate.
Defined.

(** C4.  In a block that ends with the terminator ".", every line that
    begins with "." and is not exactly "." is returned with exactly one
    leading dot removed, at its place in the output (whatever follows the
    dot, a second dot included); the lines around it are treated alike, and
    the line "." ends the block and is left out of the output. *)
Theorem ReadLines_strips_one_dot :
  forall (pre post rest : list string) (s out : string) (e : error),
    Forall (fun l => l <> ".") pre ->
    Forall (fun l => l <> ".") post ->
    s <> "" ->
    ReadLines (mkClient out (pre ++ String "." s :: post ++ "." :: rest) e)
    = Done (((map stripOneDot pre ++ s :: map stripOneDot post)%list, None),
            mkClient out rest e).
Proof.
  intros pre post rest s out e Hpre Hpost Hs.
  replace (pre ++ String "." s :: post ++ "." :: rest)%list
    with ((pre ++ String "." s :: post) ++ "." :: rest)%list
    by (rewrite <- app_assoc; reflexivity).
  rewrite ReadLines_block.
  - rewrite map_app. reflexivity.
  - apply Forall_app. split; [exact Hpre|].
    constructor; [|exact Hpost].
    intros H. injection H as H. contradiction.
Qed.

Lemma ReadLines_strips_one_dot_witness :
  ReadLines (server ["a"; ".hello"; "..x"; "."; "+OK"])
  = Done ((["a"; "hello"; ".x"], None), mkClient "" ["+OK"] (ioError "EOF"))
  /\ ReadLines (server ["."; "+OK"])
  = Done (([], None), mkClient "" ["+OK"] (ioError "EOF")).
Proof.
  split.
  - apply (ReadLines_strips_one_dot ["a"] ["..x"] ["+OK"] "hello" "" (ioError "EOF"));
      repeat constructor; discriminate.
  - reflexivity.
Defined.

(** ** Auth *)

Lemma find_app {A} (P : A -> bool) (l1 l2 : list A) :
  find P (l1 ++ l2) = match find P l1 with
                      | Some x => Some x
                      | None => find P l2
                      end.
Proof.
  induction l1 as [|a l1 IH]; simpl; [reflexivity|].
  destruct (P a); [reflexivity | exact IH].
Qed.

Lemma genSplit_cons (k : nat) (sep : ascii) (s : string) :
  Strings.genSplit k sep s = hd "" (Strings.genSplit k sep s) :: tl (Strings.genSplit k sep s).
Proof.
  destruct k; simpl; [reflexivity|].
  destruct (Strings.cutByte sep s) as [[a b]|]; reflexivity.
Qed.

(** Split never returns an empty slice, so [sasl[1:]] cannot panic. *)
Lemma slice1_Split (s : string) (c : Client) :
  slice1 (Strings.Split s " ") c = Done (tl (Strings.Split s " "), c).
Proof.
  unfold Strings.Split, Strings.SplitN. cbn [Z.eqb Z.ltb Z.compare].
  rewrite genSplit_cons. reflexivity.
Qed.

Lemma SASL_is_not_PLAIN (a : string) :
  Strings.HasPrefix a "SASL" = true -> (a =? "PLAIN")%string = false.
Proof.
  intros H. destruct (String.eqb_spec a "PLAIN"); [|reflexivity].
  subst. discriminate H.
Qed.

(** The first loop of Auth computes the mechanism list and the flag. *)
Lemma scanCaps_spec (caps : list string) :
  forall sasl plain c,
    scanCaps caps sasl plain c =
      Done ((match find (fun x => Strings.HasPrefix x "SASL") (rev caps) with
             | Some x => Some (tl (Strings.Split x " "))
             | None => sasl
             end,
             plain || hasPLAIN caps), c).
Proof.
  induction caps as [|a caps IH]; intros sasl plain c.
  - cbn. rewrite orb_false_r. reflexivity.
  - cbn [scanCaps rev]. rewrite find_app. unfold hasPLAIN. cbn [existsb find].
    destruct (Strings.HasPrefix a "SASL") eqn:Ha.
    + unfold bind. rewrite slice1_Split. rewrite IH.
      rewrite (SASL_is_not_PLAIN a Ha). cbn [orb]. unfold hasPLAIN.
      destruct (find _ (rev caps)); reflexivity.
    + destruct (a =? "PLAIN")%string; rewrite IH; unfold hasPLAIN.
      * rewrite orb_true_r. cbn [orb].
        destruct (find _ (rev caps)); reflexivity.
      * cbn [orb]. destruct (find _ (rev caps)); reflexivity.
Qed.

(** The second loop of Auth runs the exchange iff "CRAM-MD5" is listed. *)
Lemma rangeSasl_spec (u p : string) (sasl : list string) (after : M (option error)) :
  rangeSasl u p sasl after =
    if existsb (fun v => (v =? "CRAM-MD5")%string) sasl
    then authCRAMMD5 u p else after.
Proof.
  induction sasl as [|v sasl IH]; [reflexivity|].
  cbn [rangeSasl existsb]. destruct (v =? "CRAM-MD5")%string; [reflexivity | exact IH].
Qed.

Lemma Auth_select (u p : string) (c : Client) :
  Auth u p c = bind Caps (fun r => authBranch u p (fst r)) c.
Proof.
  unfold Auth, bind at 1 3.
  destruct (Caps c) as [[[caps err] c1]| |]; [|reflexivity|reflexivity].
  unfold bind. rewrite scanCaps_spec. cbn [fst orb].
  unfold authBranch, hasCRAMMD5, saslMechanisms.
  destruct (find _ (rev caps)) as [x|].
  - rewrite rangeSasl_spec. reflexivity.
  - reflexivity.
Qed.

Lemma Caps_block (caps rest : list string) (out : string) (e : error) :
  Forall (fun x => x <> ".") caps ->
  Caps (mkClient out ("+OK" :: caps ++ "." :: rest) e)
  = Done ((map stripOneDot caps, None), mkClient (out ++ "CAPA" ++ CRLF) rest e).
Proof.
  intros H. unfold Caps, bind.
  rewrite (Cmd_status "CAPA" [] ("CAPA" ++ CRLF) _ "+OK" (caps ++ "." :: rest));
    [|reflexivity|reflexivity|discriminate].
  cbn [conn binErr]. apply ReadLines_block. exact H.
Qed.

Lemma Sprintf_AUTH (u b : string) :
  Fmt.Sprintf (wire "AUTH %s %s") [Fmt.Str u; Fmt.Str b]
  = Some ("AUTH " ++ u ++ " " ++ b ++ CRLF).
Proof. reflexivity. Qed.

(** The exchange of RFC 2195 run through Auth: the bytes left on the
    connection. *)
Example Auth_CRAMMD5_session :
  Auth "tim" "tanstaaftanstaaf"
    (server ["+OK"; "SASL CRAM-MD5 PLAIN"; "PLAIN"; ".";
             "+ PDE4OTYuNjk3MTcwOTUyQHBvc3RvZmZpY2UucmVzdG9uLm1jaS5uZXQ+";
             "+OK logged in"])
  = Done (None,
          mkClient ("CAPA" ++ CRLF ++ "AUTH CRAM-MD5" ++ CRLF
                    ++ "dGltIGI5MTNhNjAyYzdlZGE3YTQ5NWI0ZTZlNzMzNGQzODkw" ++ CRLF)
                   [] (ioError "EOF")).
Proof. vm_compute. reflexivity. Qed.

(** C6 (the code departs from the claim).  The claim has the plain path
    send the literal words "AUTH PLAIN" and then the base64 encoding of the
    password.  Auth formats "AUTH %s %s" with the username as first
    operand, so the username stands where the mechanism name belongs: with
    the capability "PLAIN" alone, the user "bob" and the password "x",
    Auth sends "AUTH bob eA==" and not "AUTH PLAIN eA==". *)
Lemma Auth_plain_sends_username :
  exists r c',
    Auth "bob" "x" (server ["+OK"; "PLAIN"; "."; "+OK"]) = Done (r, c')
    /\ conn c' = "CAPA" ++ CRLF ++ "AUTH bob eA==" ++ CRLF
    /\ conn c' <> "CAPA" ++ CRLF ++ "AUTH PLAIN "
                    ++ Base64.EncodeToString (bytesOf "x") ++ CRLF.
Proof.
  eexists. eexists. split; [vm_compute; reflexivity|].
  split; [reflexivity | discriminate].
Qed.

(** ** Stat, List and ListAll *)

Lemma HasPrefix_plus_nonempty (l : string) :
  Strings.HasPrefix l "+" = true -> l <> "".
Proof. intros H ->. discriminate H. Qed.

Lemma Sprintf_LIST (msg : Z) :
  Fmt.Sprintf (wire "LIST %d") [Fmt.Int msg]
  = Some ("LIST " ++ Strconv.Itoa msg ++ CRLF).
Proof. reflexivity. Qed.

(** C8 (the code departs from the claim).  The claim has Stat parse every
    success payload as two integers, or answer a field that is no integer
    with a malformed-response error and zeros.  Stat does so whenever the
    payload has two fields or its first field is no integer, but it checks
    no length: on a payload without any field [parts[0]] is out of range,
    and on a payload whose only field is an integer, such as "5",
    [parts[1]] is out of range, and Stat panics instead of returning an
    error.  What Stat does on every reply that starts with '+': *)
Theorem Stat_on_success_payload :
  forall out l rest e,
    Strings.HasPrefix l "+" = true ->
    let invalid :=
      Done ((0, 0, Some (errorString "Invalid server response")),
            mkClient (out ++ "STAT" ++ CRLF) rest e) in
    Stat (mkClient out (l :: rest) e) =
      match Strings.Fields (remainder l) with
      | [] => Panic 0 0
      | f0 :: fs =>
        match snd (Strconv.Atoi f0) with
        | Some _ => invalid
        | None =>
          match fs with
          | [] => Panic 1 1
          | f1 :: _ =>
            match snd (Strconv.Atoi f1) with
            | Some _ => invalid
            | None => Done ((fst (Strconv.Atoi f0), fst (Strconv.Atoi f1), None),
                            mkClient (out ++ "STAT" ++ CRLF) rest e)
            end
          end
        end
      end.
Proof.
  intros out l rest e Hp invalid. unfold invalid.
  unfold Stat, bind.
  rewrite (Cmd_status "STAT" [] ("STAT" ++ CRLF) (mkClient out (l :: rest) e)
             l rest eq_refl eq_refl
             (HasPrefix_plus_nonempty l Hp)).
  rewrite Hp. unfold index. cbn [conn binErr].
  destruct (Strings.Fields (remainder l)) as [|f0 fs]; [reflexivity|].
  cbn [nth_error List.length].
  destruct (Strconv.Atoi f0) as [n0 [e0|]]; [reflexivity|].
  destruct fs as [|f1 fs]; [reflexivity|].
  cbn [nth_error snd fst].
  destruct (Strconv.Atoi f1) as [n1 [e1|]]; reflexivity.
Qed.

Lemma Stat_on_success_payload_witness :
  Stat (server ["+OK 5"]) = Panic 1 1
  /\ Stat (server ["+OK "]) = Panic 0 0
  /\ Stat (server ["+OK 5 2048"])
    = Done ((5, 2048, None), mkClient ("STAT" ++ CRLF) [] (ioError "EOF"))
  /\ Stat (server ["+OK abc 10"])
    = Done ((0, 0, Some (errorString "Invalid server response")),
            mkClient ("STAT" ++ CRLF) [] (ioError "EOF"))
  /\ Stat (server ["+OK 10 abc"])
    = Done ((0, 0, Some (errorString "Invalid server response")),
            mkClient ("STAT" ++ CRLF) [] (ioError "EOF")).
Proof.
  split; [|split; [|split; [|split]]].
  - apply (Stat_on_success_payload "" "+OK 5" [] (ioError "EOF")). reflexivity.
  - apply (Stat_on_success_payload "" "+OK " [] (ioError "EOF")). reflexivity.
  - apply (Stat_on_success_payload "" "+OK 5 2048" [] (ioError "EOF")). reflexivity.
  - apply (Stat_on_success_payload "" "+OK abc 10" [] (ioError "EOF")). reflexivity.
  - apply (Stat_on_success_payload "" "+OK 10 abc" [] (ioError "EOF")). reflexivity.
Defined.

(** C10.  A success payload with fewer than two whitespace-separated fields
    makes List index the fields out of range, a panic, in every case; Stat
    panics on [parts[0]] when there is no field and on [parts[1]] when the
    only field is an integer (a single field that is no integer is turned
    into the error before [parts[1]] is reached).  No length check guards
    these accesses. *)
Theorem Stat_List_index_out_of_range :
  forall msg out l rest e,
    Strings.HasPrefix l "+" = true ->
    (List.length (Strings.Fields (remainder l)) < 2)%nat ->
    List msg (mkClient out (l :: rest) e)
      = Panic 1 (List.length (Strings.Fields (remainder l)))
    /\ Stat (mkClient out (l :: rest) e)
      = match Strings.Fields (remainder l) with
        | [] => Panic 0 0
        | f0 :: _ =>
          match snd (Strconv.Atoi f0) with
          | None => Panic 1 1
          | Some _ => Done ((0, 0, Some (errorString "Invalid server response")),
                            mkClient (out ++ "STAT" ++ CRLF) rest e)
          end
        end.
Proof.
  intros msg out l rest e Hp Hlen.
  pose proof (HasPrefix_plus_nonempty l Hp) as Hl.
  split.
  - unfold List, bind.
    rewrite (Cmd_status "LIST %d" [Fmt.Int msg] _ (mkClient out (l :: rest) e)
               l rest (Sprintf_LIST msg) eq_refl Hl).
    rewrite Hp. unfold index.
    destruct (Strings.Fields (remainder l)) as [|f0 [|f1 fs]]; cbn in Hlen |- *;
      [reflexivity | reflexivity | lia].
  - unfold Stat, bind.
    rewrite (Cmd_status "STAT" [] ("STAT" ++ CRLF) (mkClient out (l :: rest) e)
               l rest eq_refl eq_refl Hl).
    rewrite Hp. unfold index.
    destruct (Strings.Fields (remainder l)) as [|f0 [|f1 fs]]; cbn in Hlen |- *;
      [reflexivity | | lia].
    destruct (Strconv.Atoi f0) as [n0 [e0|]]; reflexivity.
Qed.

Lemma Stat_List_index_out_of_range_witness :
  (List 3 (server ["+OK 5"]) = Panic 1 1 /\ Stat (server ["+OK 5"]) = Panic 1 1)
  /\ (List 3 (server ["+OK "]) = Panic 1 0 /\ Stat (server ["+OK "]) = Panic 0 0).
Proof.
  split.
  - apply (Stat_List_index_out_of_range 3 "" "+OK 5" [] (ioError "EOF"));
      [reflexivity | cbn; lia].
  - apply (Stat_List_index_out_of_range 3 "" "+OK " [] (ioError "EOF"));
      [reflexivity | cbn; lia].
Defined.

Lemma set_length {A} (a : list A) :
  forall i v a', set a i v = Some a' -> List.length a' = List.length a.
Proof.
  induction a as [|x a IH]; intros i v a' H; [discriminate H|].
  destruct i as [|i]; cbn in H.
  - injection H as <-. reflexivity.
  - destruct (set a i v) as [a0|] eqn:E; [|discriminate H].
    injection H as <-. cbn. f_equal. exact (IH i v a0 E).
Qed.

(** The loop of ListAll never shortens the two slices: whatever it returns,
    with or without an error, has the lengths it started with. *)
Lemma listAllLoop_length (lines : list string) :
  forall i msgs sizes c msgs' sizes' err c',
    listAllLoop lines i msgs sizes c = Done ((msgs', sizes', err), c') ->
    List.length msgs' = List.length msgs /\ List.length sizes' = List.length sizes.
Proof.
  induction lines as [|l lines IH]; intros i msgs sizes c msgs' sizes' err c' H.
  - injection H as <- <- _ _. split; reflexivity.
  - cbn [listAllLoop] in H. unfold bind, index, store in H.
    destruct (nth_error (Strings.Fields l) 0) as [f0|]; [|discriminate H].
    destruct (Strconv.Atoi f0) as [m [e0|]].
    { injection H as <- <- _ _. split; reflexivity. }
    destruct (nth_error (Strings.Fields l) 1) as [f1|]; [|discriminate H].
    destruct (Strconv.Atoi f1) as [s [e1|]].
    { injection H as <- <- _ _. split; reflexivity. }
    destruct (set msgs i m) as [msgs1|] eqn:Em; [|discriminate H].
    destruct (set sizes i s) as [sizes1|] eqn:Es; [|discriminate H].
    apply IH in H. destruct H as [H1 H2].
    rewrite H1, H2, (set_length _ _ _ _ Em), (set_length _ _ _ _ Es).
    split; reflexivity.
Qed.

(** So after a complete LIST block ListAll returns, whenever it returns, two
    slices with one entry per line of the block, error or not. *)
Lemma ListAll_block_lengths out l lines rest e msgs sizes err c' :
  Strings.HasPrefix l "+" = true ->
  Forall (fun x => x <> ".") lines ->
  ListAll (mkClient out (l :: lines ++ "." :: rest) e) = Done ((msgs, sizes, err), c') ->
  List.length msgs = List.length lines /\ List.length sizes = List.length lines.
Proof.
  intros Hp Hls H. unfold ListAll, bind in H.
  rewrite (Cmd_status "LIST" [] ("LIST" ++ CRLF)
             (mkClient out (l :: lines ++ "." :: rest) e)
             l (lines ++ "." :: rest) eq_refl eq_refl
             (HasPrefix_plus_nonempty l Hp)) in H.
  rewrite Hp in H. cbn [conn binErr] in H.
  rewrite (ReadLines_block lines rest _ e Hls) in H.
  apply listAllLoop_length in H.
  rewrite !repeat_length, !length_map in H. exact H.
Qed.

(** C7 (the code departs from the claim).  The claim asks that both
    sequences be empty when a line of the LIST reply fails to parse.
    ListAll allocates both slices with one entry per line before parsing
    and returns them as they are on a parse error: for the reply lines
    "1 100", "x 200" it returns the ids 1, 0 and the sizes 100, 0 together
    with the error of Atoi. *)
Theorem ListAll_parse_failure_keeps_slices :
  ListAll (server ["+OK 2 messages"; "1 100"; "x 200"; "."])
  = Done (([1; 0], [100; 0], Some (NumError "Atoi" "x" ErrSyntax)),
          mkClient ("LIST" ++ CRLF) [] (ioError "EOF")).
Proof. vm_compute. reflexivity. Qed.

(** ** The remaining methods on sample replies *)

Example List_example :
  List 3 (server ["+OK 3 512"])
  = Done ((512, None), mkClient ("LIST 3" ++ CRLF) [] (ioError "EOF")).
Proof. vm_compute. reflexivity. Qed.

Example ListAll_example :
  ListAll (server ["+OK 2 messages"; "1 100"; "2 200"; "."])
  = Done (([1; 2], [100; 200], None), mkClient ("LIST" ++ CRLF) [] (ioError "EOF")).
Proof. vm_compute. reflexivity. Qed.

Example Retr_example :
  Retr 1 (server ["+OK 12 octets"; "Subject: x"; ""; "..dot"; "."])
  = Done (("Subject: x" ++ LF ++ LF ++ ".dot", None),
          mkClient ("RETR 1" ++ CRLF) [] (ioError "EOF")).
Proof. vm_compute. reflexivity. Qed.

Example NewClient_example :
  NewClient ["+OK POP3 server ready"] (ioError "EOF")
  = Done (Some (mkClient "" [] (ioError "EOF")), None).
Proof. vm_compute. reflexivity. Qed.

(** * Further properties of the client *)

(** ** Failure of the transport *)

Lemma Sprintf_msg (verb : string) (msg : Z) :
  noPercent verb = true ->
  Fmt.Sprintf (wire (verb ++ " %d")) [Fmt.Int msg]
  = Some (verb ++ " " ++ Strconv.Itoa msg ++ CRLF).
Proof.
  intros H. unfold wire.
  replace (negb (verb ++ " %d" =? "")%string) with true
    by (destruct verb; reflexivity).
  unfold Fmt.Sprintf.
  induction verb as [|c t IH]; [reflexivity|].
  cbn in H. apply andb_true_iff in H. destruct H as [Hc Ht].
  apply negb_true_iff in Hc.
  cbn [append Fmt.doPrintf]. rewrite Hc, (IH Ht). reflexivity.
Qed.

(** X1.  When the transport fails before a reply arrives, every operation
    that starts with one command returns its zero values together with the
    transport's own error, unchanged, after having written its command
    once; Quit then does not close the connection, and NewClient returns no
    client. *)
Theorem transport_error_is_returned :
  forall (out : string) (e : error) (msg : Z),
    let dead := mkClient out [] e in
    let after := fun text => mkClient (out ++ text ++ CRLF) [] e in
    Stat dead = Done ((0, 0, Some e), after "STAT")
    /\ List msg dead = Done ((0, Some e), after ("LIST " ++ Strconv.Itoa msg))
    /\ ListAll dead = Done (([], [], Some e), after "LIST")
    /\ Retr msg dead = Done (("", Some e), after ("RETR " ++ Strconv.Itoa msg))
    /\ Dele msg dead = Done (Some e, after ("DELE " ++ Strconv.Itoa msg))
    /\ Noop dead = Done (Some e, after "NOOP")
    /\ Rset dead = Done (Some e, after "RSET")
    /\ Quit dead = Done ((Some e, false), after "QUIT")
    /\ NewClient [] e = Done (None, Some e).
Proof.
  intros out e msg dead after.
  split; [|split; [|split; [|split; [|split; [|split; [|split; [|split]]]]]]].
  - unfold Stat, bind.
    rewrite (Cmd_read_error "STAT" [] _ dead eq_refl eq_refl). reflexivity.
  - unfold List, bind.
    rewrite (Cmd_read_error "LIST %d" [Fmt.Int msg] _ dead (Sprintf_LIST msg) eq_refl).
    reflexivity.
  - unfold ListAll, bind.
    rewrite (Cmd_read_error "LIST" [] _ dead eq_refl eq_refl). reflexivity.
  - unfold Retr, bind.
    rewrite (Cmd_read_error "RETR %d" [Fmt.Int msg] _ dead
               (Sprintf_msg "RETR" msg eq_refl) eq_refl).
    reflexivity.
  - unfold Dele, bind.
    rewrite (Cmd_read_error "DELE %d" [Fmt.Int msg] _ dead
               (Sprintf_msg "DELE" msg eq_refl) eq_refl).
    reflexivity.
  - unfold Noop, bind.
    rewrite (Cmd_read_error "NOOP" [] _ dead eq_refl eq_refl). reflexivity.
  - unfold Rset, bind.
    rewrite (Cmd_read_error "RSET" [] _ dead eq_refl eq_refl). reflexivity.
  - unfold Quit, bind.
    rewrite (Cmd_read_error "QUIT" [] _ dead eq_refl eq_refl). reflexivity.
  - reflexivity.
Qed.

(** X2.  Caps and Auth drop the transport's error.  On a connection that
    fails before any reply, Caps hands back what ReadLines returns (no
    capability and the error), and Auth, which does not look at that error,
    reports "No supported auth methods found." after having written
    nothing but CAPA. *)
Theorem Auth_masks_transport_error :
  forall (u p out : string) (e : error),
    Caps (mkClient out [] e)
      = Done (([], Some e), mkClient (out ++ "CAPA" ++ CRLF) [] e)
    /\ Auth u p (mkClient out [] e)
      = Done (Some (errorString "No supported auth methods found."),
              mkClient (out ++ "CAPA" ++ CRLF) [] e).
Proof.
  intros u p out e.
  assert (HC : Caps (mkClient out [] e)
               = Done (([], Some e), mkClient (out ++ "CAPA" ++ CRLF) [] e)).
  { unfold Caps, bind.
    rewrite (Cmd_read_error "CAPA" [] _ (mkClient out [] e) eq_refl eq_refl).
    reflexivity. }
  split; [exact HC|].
  rewrite Auth_select. unfold bind. rewrite HC. reflexivity.
Qed.

(** ** Commands answered by a single status line *)

(** X3.  Dele, Noop and Rset write their command once (the message number
    in decimal), read exactly one line and return nil when it starts with
    '+', otherwise an error carrying the remainder of that line; later
    lines stay in the reader. *)
Theorem simple_commands_status :
  forall (msg : Z) (out l : string) (rest : list string) (e : error),
    l <> "" ->
    let c := mkClient out (l :: rest) e in
    Dele msg c
      = Done (statusOf l, mkClient (out ++ "DELE " ++ Strconv.Itoa msg ++ CRLF) rest e)
    /\ Noop c = Done (statusOf l, mkClient (out ++ "NOOP" ++ CRLF) rest e)
    /\ Rset c = Done (statusOf l, mkClient (out ++ "RSET" ++ CRLF) rest e).
Proof.
  intros msg out l rest e Hl c. unfold statusOf.
  split; [|split].
  - unfold Dele, bind.
    rewrite (Cmd_status "DELE %d" [Fmt.Int msg] _ c l rest
               (Sprintf_msg "DELE" msg eq_refl) eq_refl Hl).
    destruct (Strings.HasPrefix l "+"); reflexivity.
  - unfold Noop, bind.
    rewrite (Cmd_status "NOOP" [] _ c l rest eq_refl eq_refl Hl).
    destruct (Strings.HasPrefix l "+"); reflexivity.
  - unfold Rset, bind.
    rewrite (Cmd_status "RSET" [] _ c l rest eq_refl eq_refl Hl).
    destruct (Strings.HasPrefix l "+"); reflexivity.
Qed.

Lemma simple_commands_status_witness :
  Dele 7 (server ["-ERR no such message"; "x"])
    = Done (Some (errorString "no such message"),
            mkClient ("DELE 7" ++ CRLF) ["x"] (ioError "EOF"))
  /\ Noop (server ["-ERR no such message"; "x"])
    = Done (Some (errorString "no such message"),
            mkClient ("NOOP" ++ CRLF) ["x"] (ioError "EOF"))
  /\ Rset (server ["-ERR no such message"; "x"])
    = Done (Some (errorString "no such message"),
            mkClient ("RSET" ++ CRLF) ["x"] (ioError "EOF")).
Proof.
  apply (simple_commands_status 7 "" "-ERR no such message" ["x"] (ioError "EOF")).
  discriminate.
Defined.

(** X4.  Quit closes the connection exactly when the reply to QUIT starts
    with '+'.  On any other non-empty reply it returns the server's text as
    an error and leaves the connection open. *)
Theorem Quit_closes_on_success_only :
  forall (out l : string) (rest : list string) (e : error),
    l <> "" ->
    Quit (mkClient out (l :: rest) e)
    = Done ((statusOf l, Strings.HasPrefix l "+"),
            mkClient (out ++ "QUIT" ++ CRLF) rest e).
Proof.
  intros out l rest e Hl. unfold Quit, bind, statusOf.
  rewrite (Cmd_status "QUIT" [] _ (mkClient out (l :: rest) e) l rest
             eq_refl eq_refl Hl).
  destruct (Strings.HasPrefix l "+"); reflexivity.
Qed.

Lemma Quit_closes_on_success_only_witness :
  Quit (server ["+OK bye"])
    = Done ((None, true), mkClient ("QUIT" ++ CRLF) [] (ioError "EOF"))
  /\ Quit (server ["-ERR some deleted messages not removed"])
    = Done ((Some (errorString "some deleted messages not removed"), false),
            mkClient ("QUIT" ++ CRLF) [] (ioError "EOF")).
Proof.
  split.
  - apply (Quit_closes_on_success_only "" "+OK bye" [] (ioError "EOF")). discriminate.
  - apply (Quit_closes_on_success_only ""
             "-ERR some deleted messages not removed" [] (ioError "EOF")).
    discriminate.
Defined.

(** X5.  NewClient writes nothing and reads exactly the greeting.  A
    greeting that starts with '+' gives a client whose reader holds the
    lines after it; any other non-empty greeting gives no client and an
    error carrying the remainder of the greeting. *)
Theorem NewClient_greeting :
  forall (l : string) (rest : list string) (e : error),
    l <> "" ->
    NewClient (l :: rest) e
    = if Strings.HasPrefix l "+"
      then Done (Some (mkClient "" rest e), None)
      else Done (None, Some (errorString (remainder l))).
Proof.
  intros l rest e Hl. unfold NewClient.
  rewrite (Cmd_status "" [] "" (mkClient "" (l :: rest) e) l rest eq_refl eq_refl Hl).
  destruct (Strings.HasPrefix l "+"); reflexivity.
Qed.

Lemma NewClient_greeting_witness :
  NewClient ["+OK POP3 ready <1896.697170952@dbc.mtview.ca.us>"; "x"] (ioError "EOF")
    = Done (Some (mkClient "" ["x"] (ioError "EOF")), None)
  /\ NewClient ["-ERR too many connections"] (ioError "EOF")
    = Done (None, Some (errorString "too many connections")).
Proof.
  split.
  - apply (NewClient_greeting "+OK POP3 ready <1896.697170952@dbc.mtview.ca.us>"
             ["x"] (ioError "EOF")).
    discriminate.
  - apply (NewClient_greeting "-ERR too many connections" [] (ioError "EOF")).
    discriminate.
Defined.

(** ** Multi-line replies *)

Lemma readLoop_truncated (ls : list string) :
  forall acc l,
    l <> "." ->
    Forall (fun x => x <> ".") ls ->
    readLoop ls acc l = ((acc ++ map stripOneDot (l :: ls))%list, [], true).
Proof.
  induction ls as [|x ls IH]; intros acc l Hl Hls.
  - rewrite readLoop_eq.
    destruct (String.eqb_spec l "."); [contradiction|].
    cbv zeta. rewrite unstuff_stripOneDot. reflexivity.
  - rewrite readLoop_eq.
    destruct (String.eqb_spec l "."); [contradiction|].
    cbv zeta. rewrite unstuff_stripOneDot.
    inversion Hls as [|? ? Hx Hls']; subst.
    rewrite (IH _ x Hx Hls'). rewrite <- app_assoc. reflexivity.
Qed.

Lemma ReadLines_cut (ls : list string) (out : string) (e : error) :
  Forall (fun x => x <> ".") ls ->
  ReadLines (mkClient out ls e)
  = Done ((map stripOneDot ls, Some e), mkClient out [] e).
Proof.
  intros H. unfold ReadLines. cbn [bin conn binErr].
  destruct ls as [|l ls]; [reflexivity|].
  inversion H as [|? ? Hl Hls]; subst.
  rewrite (readLoop_truncated ls [] l Hl Hls). reflexivity.
Qed.

(** X6.  A block cut off by the transport: when the reader fails before
    any line "." has arrived, ReadLines returns every line read so far
    (each with one leading dot removed) together with the transport's
    error; the lines are not discarded. *)
Theorem ReadLines_truncated :
  forall (ls : list string) (out : string) (e : error),
    Forall (fun x => x <> ".") ls ->
    ReadLines (mkClient out ls e)
    = Done ((map stripOneDot ls, Some e), mkClient out [] e).
Proof.
  intros ls out e H. exact (ReadLines_cut ls out e H).
Qed.

Lemma ReadLines_truncated_witness :
  ReadLines (server ["Subject: x"; ".hidden"])
  = Done ((["Subject: x"; "hidden"], Some (ioError "EOF")), server []).
Proof.
  apply (ReadLines_truncated ["Subject: x"; ".hidden"] "" (ioError "EOF")).
  repeat constructor; discriminate.
Defined.






(** X8.  Caps does not look at the reply to CAPA.  Whatever non-empty
    status line comes back, '+' or not, Caps goes on to read a block and
    returns its lines with no error. *)
Theorem Caps_ignores_status :
  forall (out l : string) (caps rest : list string) (e : error),
    l <> "" ->
    Forall (fun x => x <> ".") caps ->
    Caps (mkClient out (l :: caps ++ "." :: rest) e)
    = Done ((map stripOneDot caps, None), mkClient (out ++ "CAPA" ++ CRLF) rest e).
Proof.
  intros out l caps rest e Hl H. unfold Caps, bind.
  rewrite (Cmd_status "CAPA" [] ("CAPA" ++ CRLF)
             (mkClient out (l :: caps ++ "." :: rest) e)
             l (caps ++ "." :: rest) eq_refl eq_refl Hl).
  cbn [conn binErr]. apply ReadLines_block. exact H.
Qed.

Lemma Caps_ignores_status_witness :
  Caps (server ["-ERR unknown command"; "+OK"; "."; "x"])
  = Done ((["+OK"], None), mkClient ("CAPA" ++ CRLF) ["x"] (ioError "EOF")).
Proof.
  apply (Caps_ignores_status "" "-ERR unknown command" ["+OK"] ["x"] (ioError "EOF")).
  - discriminate.
  - repeat constructor; discriminate.
Defined.



(** X10.  A message cut off by the transport is not dropped: after a '+'
    status, when the reader fails before the terminator, Retr returns the
    text read so far together with the transport's error. *)
Theorem Retr_truncated :
  forall (msg : Z) (ls : list string) (out l : string) (e : error),
    Strings.HasPrefix l "+" = true ->
    Forall (fun x => x <> ".") ls ->
    Retr msg (mkClient out (l :: ls) e)
    = Done ((Strings.Join (map stripOneDot ls) LF, Some e),
            mkClient (out ++ "RETR " ++ Strconv.Itoa msg ++ CRLF) [] e).
Proof.
  intros msg ls out l e Hp Hls. unfold Retr, bind.
  rewrite (Cmd_status "RETR %d" [Fmt.Int msg] _ (mkClient out (l :: ls) e) l ls
             (Sprintf_msg "RETR" msg eq_refl) eq_refl
             (HasPrefix_plus_nonempty l Hp)).
  rewrite Hp. cbn [conn binErr].
  rewrite (ReadLines_cut ls _ e Hls). reflexivity.
Qed.

Lemma Retr_truncated_witness :
  Retr 2 (server ["+OK"; "Subject: x"; "body"])
  = Done (("Subject: x" ++ LF ++ "body", Some (ioError "EOF")),
          mkClient ("RETR 2" ++ CRLF) [] (ioError "EOF")).
Proof.
  apply (Retr_truncated 2 ["Subject: x"; "body"] "" "+OK" (ioError "EOF"));
    [reflexivity | repeat constructor; discriminate].
Defined.

(** X11.  A refused RETR or LIST reads no block.  When the status line is
    not empty and does not start with '+', Retr returns the empty text and
    ListAll two empty sequences, each with an error carrying the remainder
    of the status line, and every later line stays in the reader. *)
Theorem refused_commands_read_no_block :
  forall (msg : Z) (out l : string) (rest : list string) (e : error),
    l <> "" ->
    Strings.HasPrefix l "+" = false ->
    Retr msg (mkClient out (l :: rest) e)
      = Done (("", Some (errorString (remainder l))),
              mkClient (out ++ "RETR " ++ Strconv.Itoa msg ++ CRLF) rest e)
    /\ ListAll (mkClient out (l :: rest) e)
      = Done (([], [], Some (errorString (remainder l))),
              mkClient (out ++ "LIST" ++ CRLF) rest e).
Proof.
  intros msg out l rest e Hl Hp. split.
  - unfold Retr, bind.
    rewrite (Cmd_status "RETR %d" [Fmt.Int msg] _ (mkClient out (l :: rest) e) l rest
               (Sprintf_msg "RETR" msg eq_refl) eq_refl Hl).
    rewrite Hp. reflexivity.
  - unfold ListAll, bind.
    rewrite (Cmd_status "LIST" [] _ (mkClient out (l :: rest) e) l rest
               eq_refl eq_refl Hl).
    rewrite Hp. reflexivity.
Qed.

Lemma refused_commands_read_no_block_witness :
  Retr 9 (server ["-ERR no such message"; "x"])
    = Done (("", Some (errorString "no such message")),
            mkClient ("RETR 9" ++ CRLF) ["x"] (ioError "EOF"))
  /\ ListAll (server ["-ERR no such message"; "x"])
    = Done (([], [], Some (errorString "no such message")),
            mkClient ("LIST" ++ CRLF) ["x"] (ioError "EOF")).
Proof.
  apply (refused_commands_read_no_block 9 "" "-ERR no such message" ["x"] (ioError "EOF"));
    [discriminate | reflexivity].
Defined.

(** ** Stat, List and ListAll, continued *)

(** X12.  As their comments promise, Stat and List never return an error
    together with a non-zero number: whenever Stat returns an error, count
    and size are both 0, and whenever List returns an error, the size is 0. *)
Theorem errors_come_with_zero_values :
  forall (msg : Z) (c c' : Client) (e : error),
    (forall count size, Stat c = Done ((count, size, Some e), c') ->
                        count = 0 /\ size = 0)
    /\ (forall size, List msg c = Done ((size, Some e), c') -> size = 0).
Proof.
  intros msg c c' e. split.
  - intros count size H. unfold Stat, bind in H.
    destruct (Cmd "STAT" [] c) as [[[l [e0|]] c1]| |]; try discriminate H.
    + injection H as <- <- _ _. split; reflexivity.
    + unfold index in H.
      destruct (nth_error (Strings.Fields l) 0) as [p0|]; [|discriminate H].
      destruct (Strconv.Atoi p0) as [n0 [e1|]].
      * injection H as <- <- _ _. split; reflexivity.
      * destruct (nth_error (Strings.Fields l) 1) as [p1|]; [|discriminate H].
        destruct (Strconv.Atoi p1) as [n1 [e2|]]; [|discriminate H].
        injection H as <- <- _ _. split; reflexivity.
  - intros size H. unfold List, bind in H.
    destruct (Cmd "LIST %d" [Fmt.Int msg] c) as [[[l [e0|]] c1]| |]; try discriminate H.
    + injection H as <- _ _. reflexivity.
    + unfold index in H.
      destruct (nth_error (Strings.Fields l) 1) as [p1|]; [|discriminate H].
      destruct (Strconv.Atoi p1) as [n1 [e1|]]; [|discriminate H].
      injection H as <- _ _. reflexivity.
Qed.

Lemma errors_come_with_zero_values_witness :
  exists count size size',
    Stat (server ["+OK 7 99999999999999999999"])
      = Done ((count, size, Some (errorString "Invalid server response")),
              mkClient ("STAT" ++ CRLF) [] (ioError "EOF"))
    /\ List 3 (server ["+OK 3 x12"])
      = Done ((size', Some (errorString "Invalid server response")),
              mkClient ("LIST 3" ++ CRLF) [] (ioError "EOF"))
    /\ (count = 0 /\ size = 0) /\ size' = 0.
Proof.
  exists 0, 0, 0.
  split; [reflexivity|]. split; [reflexivity|].
  split.
  - apply (proj1 (errors_come_with_zero_values 3
                    (server ["+OK 7 99999999999999999999"])
                    (mkClient ("STAT" ++ CRLF) [] (ioError "EOF"))
                    (errorString "Invalid server response")) 0 0).
    reflexivity.
  - apply (proj2 (errors_come_with_zero_values 3 (server ["+OK 3 x12"])
                    (mkClient ("LIST 3" ++ CRLF) [] (ioError "EOF"))
                    (errorString "Invalid server response")) 0).
    reflexivity.
Defined.

(** X13.  List writes LIST and the message number in decimal, and its
    result is read off the second field of the payload alone: that field
    as an integer, or the error "Invalid server response" with size 0 if
    Atoi rejects it.  The first field is neither parsed nor compared with
    the number asked for. *)
Theorem List_returns_second_field :
  forall (msg : Z) (out l : string) (rest : list string) (e : error)
         (f0 f1 : string) (fs : list string),
    Strings.HasPrefix l "+" = true ->
    Strings.Fields (remainder l) = f0 :: f1 :: fs ->
    List msg (mkClient out (l :: rest) e)
    = Done (match snd (Strconv.Atoi f1) with
            | None => (fst (Strconv.Atoi f1), None)
            | Some _ => (0, Some (errorString "Invalid server response"))
            end,
            mkClient (out ++ "LIST " ++ Strconv.Itoa msg ++ CRLF) rest e).
Proof.
  intros msg out l rest e f0 f1 fs Hp Hf. unfold List, bind.
  rewrite (Cmd_status "LIST %d" [Fmt.Int msg] _ (mkClient out (l :: rest) e)
             l rest (Sprintf_LIST msg) eq_refl (HasPrefix_plus_nonempty l Hp)).
  rewrite Hp, Hf. unfold index. cbn [nth_error conn binErr].
  destruct (Strconv.Atoi f1) as [n1 [e1|]]; reflexivity.
Qed.

Lemma List_returns_second_field_witness :
  List 3 (server ["+OK 3 512"])
    = Done ((512, None), mkClient ("LIST 3" ++ CRLF) [] (ioError "EOF"))
  /\ List 3 (server ["+OK other 512 octets"])
    = Done ((512, None), mkClient ("LIST 3" ++ CRLF) [] (ioError "EOF"))
  /\ List (-3) (server ["+OK 3 5x"])
    = Done ((0, Some (errorString "Invalid server response")),
            mkClient ("LIST -3" ++ CRLF) [] (ioError "EOF")).
Proof.
  split; [|split].
  - apply (List_returns_second_field 3 "" "+OK 3 512" [] (ioError "EOF") "3" "512" []);
      reflexivity.
  - apply (List_returns_second_field 3 "" "+OK other 512 octets" [] (ioError "EOF")
             "other" "512" ["octets"]); reflexivity.
  - apply (List_returns_second_field (-3) "" "+OK 3 5x" [] (ioError "EOF") "3" "5x" []);
      reflexivity.
Defined.

Lemma store_middle {A} (pre : list A) (x v : A) (t : list A) (i : nat) (c : Client) :
  List.length pre = i ->
  store (pre ++ x :: t) i v c = Done ((pre ++ v :: t)%list, c).
Proof.
  intros <-. unfold store.
  replace (set (pre ++ x :: t) (List.length pre) v) with (Some (pre ++ v :: t)%list);
    [reflexivity|].
  induction pre as [|a pre IH]; [reflexivity|].
  cbn [List.app List.length set]. rewrite <- IH. reflexivity.
Qed.

Lemma parseLine_Some (l : string) (m s : Z) :
  parseLine l = Some (m, s) ->
  exists f0 f1 fs,
    Strings.Fields l = f0 :: f1 :: fs
    /\ Strconv.Atoi f0 = (m, None) /\ Strconv.Atoi f1 = (s, None).
Proof.
  unfold parseLine. intros H.
  destruct (Strings.Fields l) as [|f0 [|f1 fs]]; try discriminate H.
  destruct (Strconv.Atoi f0) as [m0 [e0|]] eqn:E0; try discriminate H.
  destruct (Strconv.Atoi f1) as [s0 [e1|]] eqn:E1; try discriminate H.
  injection H as <- <-. exists f0, f1, fs. repeat split; assumption.
Qed.

(** The loop of ListAll over lines that all parse: the entries are stored
    in order and the loop goes on with the lines that follow. *)
Lemma listAllLoop_parsed (good : list string) :
  forall pairs tail pm ps i c,
    map parseLine good = map Some pairs ->
    List.length pm = i ->
    List.length ps = i ->
    listAllLoop (good ++ tail) i
      (pm ++ repeat 0 (List.length good + List.length tail))
      (ps ++ repeat 0 (List.length good + List.length tail)) c
    = listAllLoop tail (i + List.length good)
        ((pm ++ map fst pairs) ++ repeat 0 (List.length tail))
        ((ps ++ map snd pairs) ++ repeat 0 (List.length tail)) c.
Proof.
  induction good as [|l good IH]; intros pairs tail pm ps i c Hp Hpm Hps.
  - destruct pairs; [|discriminate Hp]. cbn [map List.app List.length Nat.add].
    rewrite !app_nil_r, Nat.add_0_r. reflexivity.
  - destruct pairs as [|[m s] pairs]; [discriminate Hp|].
    cbn [map] in Hp. injection Hp as Hl Hp.
    apply parseLine_Some in Hl.
    destruct Hl as (f0 & f1 & fs & Hf & H0 & H1).
    cbn [List.app listAllLoop List.length Nat.add repeat].
    unfold bind, index. rewrite Hf. cbn [nth_error]. rewrite H0, H1.
    rewrite (store_middle pm 0 m _ i c Hpm), (store_middle ps 0 s _ i c Hps).
    specialize (IH pairs tail (pm ++ [m])%list (ps ++ [s])%list (S i) c Hp).
    rewrite <- !app_assoc in IH. cbn [List.app] in IH.
    rewrite IH by (rewrite length_app; cbn [List.length]; lia).
    cbn [map fst snd]. rewrite <- !app_assoc. cbn [List.app].
    replace (S i + List.length good)%nat with (i + S (List.length good))%nat by lia.
    reflexivity.
Qed.

Lemma ListAll_block out l lines rest e :
  Strings.HasPrefix l "+" = true ->
  Forall (fun x => x <> ".") lines ->
  ListAll (mkClient out (l :: lines ++ "." :: rest) e)
  = listAllLoop (map stripOneDot lines) 0
      (repeat 0 (List.length lines)) (repeat 0 (List.length lines))
      (mkClient (out ++ "LIST" ++ CRLF) rest e).
Proof.
  intros Hp Hls. unfold ListAll, bind.
  rewrite (Cmd_status "LIST" [] ("LIST" ++ CRLF)
             (mkClient out (l :: lines ++ "." :: rest) e)
             l (lines ++ "." :: rest) eq_refl eq_refl
             (HasPrefix_plus_nonempty l Hp)).
  rewrite Hp. cbn [conn binErr].
  rewrite (ReadLines_block lines rest _ e Hls).
  rewrite length_map. reflexivity.
Qed.

(** X14.  ListAll on a well-formed listing: after a '+' status, when every
    line of the block (byte-stuffing undone) has two leading integer
    fields, ListAll returns the message numbers and the sizes as two
    sequences in the order of the lines, with no error, and leaves what
    follows the terminator unread. *)
Theorem ListAll_returns_listing :
  forall (lines : list string) (pairs : list (Z * Z)) (rest : list string)
         (out l : string) (e : error),
    Strings.HasPrefix l "+" = true ->
    Forall (fun x => x <> ".") lines ->
    map parseLine (map stripOneDot lines) = map Some pairs ->
    ListAll (mkClient out (l :: lines ++ "." :: rest) e)
    = Done ((map fst pairs, map snd pairs, None),
            mkClient (out ++ "LIST" ++ CRLF) rest e).
Proof.
  intros lines pairs rest out l e Hp Hls Hparse.
  rewrite (ListAll_block out l lines rest e Hp Hls).
  pose proof (listAllLoop_parsed (map stripOneDot lines) pairs [] [] [] 0
                (mkClient (out ++ "LIST" ++ CRLF) rest e) Hparse eq_refl eq_refl) as H.
  cbn [List.app List.length] in H.
  rewrite app_nil_r, Nat.add_0_r, length_map in H.
  rewrite H. rewrite !app_nil_r. reflexivity.
Qed.

Lemma ListAll_returns_listing_witness :
  ListAll (server ["+OK 2 messages (320 octets)"; "1 120"; "2 200 extra"; "."; "x"])
  = Done (([1; 2], [120; 200], None), mkClient ("LIST" ++ CRLF) ["x"] (ioError "EOF")).
Proof.
  apply (ListAll_returns_listing ["1 120"; "2 200 extra"] [(1, 120); (2, 200)] ["x"]
           "" "+OK 2 messages (320 octets)" (ioError "EOF"));
    [reflexivity | repeat constructor; discriminate | reflexivity].
Defined.

(** X15.  A short line in a listing makes ListAll panic.  After a '+'
    status and lines that parse, a line without any field (an empty or
    blank line) is indexed at [fs[0]], and a line whose only field is an
    integer is indexed at [fs[1]]: both are out of range, and no result or
    error is returned. *)
Theorem ListAll_short_line_panics :
  forall (good : list string) (pairs : list (Z * Z)) (bad : string)
         (more rest : list string) (out l : string) (e : error),
    Strings.HasPrefix l "+" = true ->
    Forall (fun x => x <> ".") (good ++ bad :: more) ->
    map parseLine (map stripOneDot good) = map Some pairs ->
    match Strings.Fields (stripOneDot bad) with
    | [] => True
    | [f0] => snd (Strconv.Atoi f0) = None
    | _ => False
    end ->
    ListAll (mkClient out (l :: (good ++ bad :: more) ++ "." :: rest) e)
    = Panic (List.length (Strings.Fields (stripOneDot bad)))
            (List.length (Strings.Fields (stripOneDot bad))).
Proof.
  intros good pairs bad more rest out l e Hp Hls Hparse Hbad.
  rewrite (ListAll_block out l _ rest e Hp Hls).
  rewrite map_app, length_app. cbn [map List.length].
  pose proof (listAllLoop_parsed (map stripOneDot good) pairs
                (stripOneDot bad :: map stripOneDot more) [] [] 0
                (mkClient (out ++ "LIST" ++ CRLF) rest e) Hparse eq_refl eq_refl) as H.
  cbn [List.app List.length] in H. rewrite !length_map in H.
  cbn [List.app List.length]. rewrite H.
  cbn [listAllLoop]. unfold bind, index.
  destruct (Strings.Fields (stripOneDot bad)) as [|f0 [|f1 fs]].
  - reflexivity.
  - cbn [nth_error]. destruct (Strconv.Atoi f0) as [n0 [e0|]]; [discriminate Hbad|].
    reflexivity.
  - contradiction.
Qed.

Lemma ListAll_short_line_panics_witness :
  ListAll (server ["+OK"; "1 120"; ""; "3 77"; "."]) = Panic 0 0
  /\ ListAll (server ["+OK"; "1 120"; "2"; "."]) = Panic 1 1.
Proof.
  split.
  - apply (ListAll_short_line_panics ["1 120"] [(1, 120)] "" ["3 77"] []
             "" "+OK" (ioError "EOF"));
      [reflexivity | repeat constructor; discriminate | reflexivity | exact I].
  - apply (ListAll_short_line_panics ["1 120"] [(1, 120)] "2" [] []
             "" "+OK" (ioError "EOF"));
      [reflexivity | repeat constructor; discriminate | reflexivity | reflexivity].
Defined.

(** ** Auth, continued *)

Lemma encodeByte_not_percent (v : Z) :
  Ascii.eqb (Base64.encodeByte v) "%" = false.
Proof.
  unfold Base64.encodeByte.
  change 0x3F with (Z.ones 6). rewrite Z.land_ones by lia.
  pose proof (Z.mod_pos_bound v (2 ^ 6) ltac:(lia)) as Hb.
  assert (Hn : (Z.to_nat (v mod 2 ^ 6) < 64)%nat) by lia.
  generalize dependent (Z.to_nat (v mod 2 ^ 6)). intros n Hn.
  do 64 (destruct n as [|n]; [reflexivity|]).
  lia.
Qed.

(** Base64 text holds no '%': as a format it stands for itself. *)
Lemma noPercent_encode (bs : list Z) : noPercent (Base64.encode bs) = true.
Proof.
  assert (H : forall n bs, (List.length bs <= n)%nat ->
                           noPercent (Base64.encode bs) = true).
  { clear bs. induction n as [|n IH]; intros bs Hlen.
    - destruct bs; [reflexivity | cbn in Hlen; lia].
    - destruct bs as [|b0 [|b1 [|b2 rest]]]; cbn [Base64.encode noPercent].
      + reflexivity.
      + rewrite !encodeByte_not_percent. reflexivity.
      + rewrite !encodeByte_not_percent. reflexivity.
      + rewrite !encodeByte_not_percent. cbn [negb andb].
        apply IH. cbn in Hlen. lia. }
  exact (H (List.length bs) bs (le_n _)).
Qed.

Lemma encode_nonempty (b : Z) (bs : list Z) : Base64.encode (b :: bs) <> "".
Proof. destruct bs as [|b1 [|b2 rest]]; discriminate. Qed.

Lemma CRAMMD5Next_nonempty (u p : string) (chal : list Z) :
  exists b bs, CRAMMD5Next u p chal = b :: bs.
Proof.
  unfold CRAMMD5Next, bytesOf.
  destruct u as [|c t]; cbn; eexists; eexists; reflexivity.
Qed.

(** The response of the CRAM-MD5 exchange goes out as it is. *)
Lemma Sprintf_response (u p : string) (chal : list Z) :
  let response := Base64.EncodeToString (CRAMMD5Next u p chal) in
  Fmt.Sprintf (wire response) [] = Some (response ++ CRLF).
Proof.
  intros response.
  rewrite (Sprintf_wire_noPercent response (noPercent_encode _)).
  unfold wire.
  destruct (String.eqb_spec response ""); [|reflexivity].
  exfalso. unfold response, Base64.EncodeToString in e.
  destruct (CRAMMD5Next_nonempty u p chal) as (b & bs & E).
  rewrite E in e. exact (encode_nonempty b bs e).
Qed.

Lemma Auth_CRAMMD5 (u p : string) (c c1 : Client) (caps : list string)
    (e : option error) :
  Caps c = Done ((caps, e), c1) ->
  hasCRAMMD5 caps = true ->
  Auth u p c = authCRAMMD5 u p c1.
Proof.
  intros Hc Hcram. rewrite Auth_select. unfold bind. rewrite Hc. cbn [fst].
  unfold authBranch. rewrite Hcram. reflexivity.
Qed.

(** X16.  A refused CRAM-MD5 is final.  When the mechanism list has
    "CRAM-MD5" and the server answers AUTH CRAM-MD5 with a non-empty line
    that does not start with '+', Auth returns that line's remainder as
    the error and writes nothing further: it does not fall back to the
    plain exchange, whether or not "PLAIN" is advertised. *)
Theorem Auth_CRAMMD5_refused :
  forall (u p : string) (c c1 : Client) (caps : list string) (e : option error)
         (l : string) (rest : list string),
    Caps c = Done ((caps, e), c1) ->
    hasCRAMMD5 caps = true ->
    bin c1 = l :: rest ->
    l <> "" ->
    Strings.HasPrefix l "+" = false ->
    Auth u p c
    = Done (Some (errorString (remainder l)),
            mkClient (conn c1 ++ "AUTH CRAM-MD5" ++ CRLF) rest (binErr c1)).
Proof.
  intros u p c c1 caps e l rest Hc Hcram Hb Hl Hp.
  rewrite (Auth_CRAMMD5 u p c c1 caps e Hc Hcram).
  unfold authCRAMMD5, bind.
  rewrite (Cmd_status "AUTH CRAM-MD5" [] _ c1 l rest eq_refl Hb Hl).
  rewrite Hp. reflexivity.
Qed.

Lemma Auth_CRAMMD5_refused_witness :
  Auth "tim" "secret"
    (server ["+OK"; "SASL CRAM-MD5"; "PLAIN"; "."; "-ERR not now"; "+OK"])
  = Done (Some (errorString "not now"),
          mkClient (("" ++ "CAPA" ++ CRLF) ++ "AUTH CRAM-MD5" ++ CRLF) ["+OK"]
                   (ioError "EOF")).
Proof.
  apply (Auth_CRAMMD5_refused "tim" "secret"
           (server ["+OK"; "SASL CRAM-MD5"; "PLAIN"; "."; "-ERR not now"; "+OK"])
           (mkClient ("" ++ "CAPA" ++ CRLF) ["-ERR not now"; "+OK"] (ioError "EOF"))
           ["SASL CRAM-MD5"; "PLAIN"] None "-ERR not now" ["+OK"]);
    [reflexivity | reflexivity | reflexivity | discriminate | reflexivity].
Defined.

(** X17.  A challenge that is not valid base64 ends the exchange: Auth
    returns the decoder's error and sends no response, so the server is
    left waiting for one. *)
Theorem Auth_CRAMMD5_bad_challenge :
  forall (u p : string) (c c1 : Client) (caps : list string) (e : option error)
         (l : string) (rest : list string) (e' : error),
    Caps c = Done ((caps, e), c1) ->
    hasCRAMMD5 caps = true ->
    bin c1 = l :: rest ->
    Strings.HasPrefix l "+" = true ->
    snd (Base64.DecodeString (remainder l)) = Some e' ->
    Auth u p c
    = Done (Some e',
            mkClient (conn c1 ++ "AUTH CRAM-MD5" ++ CRLF) rest (binErr c1)).
Proof.
  intros u p c c1 caps e l rest e' Hc Hcram Hb Hp Hd.
  rewrite (Auth_CRAMMD5 u p c c1 caps e Hc Hcram).
  unfold authCRAMMD5, bind.
  rewrite (Cmd_status "AUTH CRAM-MD5" [] _ c1 l rest eq_refl Hb
             (HasPrefix_plus_nonempty l Hp)).
  rewrite Hp.
  destruct (Base64.DecodeString (remainder l)) as [chal err].
  cbn [snd] in Hd. subst err. reflexivity.
Qed.

Lemma Auth_CRAMMD5_bad_challenge_witness :
  Auth "tim" "secret"
    (server ["+OK"; "SASL CRAM-MD5"; "."; "+ <1896.697170952@example>"; "+OK"])
  = Done (Some (CorruptInputError 0),
          mkClient (("" ++ "CAPA" ++ CRLF) ++ "AUTH CRAM-MD5" ++ CRLF) ["+OK"]
                   (ioError "EOF")).
Proof.
  apply (Auth_CRAMMD5_bad_challenge "tim" "secret"
           (server ["+OK"; "SASL CRAM-MD5"; "."; "+ <1896.697170952@example>"; "+OK"])
           (mkClient ("" ++ "CAPA" ++ CRLF) ["+ <1896.697170952@example>"; "+OK"]
                     (ioError "EOF"))
           ["SASL CRAM-MD5"] None "+ <1896.697170952@example>" ["+OK"]);
    reflexivity.
Defined.

(** The exchange once the challenge is decoded. *)
Lemma authCRAMMD5_run :
  forall (u p : string) (c c1 : Client) (caps : list string) (e : option error)
         (l l2 : string) (rest : list string) (chal : list Z),
    Caps c = Done ((caps, e), c1) ->
    hasCRAMMD5 caps = true ->
    bin c1 = l :: l2 :: rest ->
    Strings.HasPrefix l "+" = true ->
    Base64.DecodeString (remainder l) = (chal, None) ->
    l2 <> "" ->
    Auth u p c
    = Done (statusOf l2,
            mkClient ((conn c1 ++ "AUTH CRAM-MD5" ++ CRLF)
                      ++ Base64.EncodeToString
                           (bytesOf (u ++ " " ++ hex (MD5.HMAC (bytesOf p) chal)))
                      ++ CRLF)
                     rest (binErr c1)).
Proof.
  intros u p c c1 caps e l l2 rest chal Hc Hcram Hb Hp Hd Hl2.
  rewrite (Auth_CRAMMD5 u p c c1 caps e Hc Hcram).
  unfold authCRAMMD5, bind.
  rewrite (Cmd_status "AUTH CRAM-MD5" [] ("AUTH CRAM-MD5" ++ CRLF) c1 l (l2 :: rest)
             eq_refl Hb
             (HasPrefix_plus_nonempty l Hp)).
  rewrite Hp. cbv beta iota. rewrite Hd. cbv beta iota.
  rewrite (Cmd_status _ [] _
             (mkClient (conn c1 ++ "AUTH CRAM-MD5" ++ CRLF) (l2 :: rest) (binErr c1))
             l2 rest (Sprintf_response u p chal) eq_refl Hl2).
  unfold statusOf, CRAMMD5Next.
  destruct (Strings.HasPrefix l2 "+"); reflexivity.
Qed.

(** X18.  The CRAM-MD5 exchange.  When the payload of the reply to AUTH
    CRAM-MD5 decodes to the challenge [chal], Auth sends, as one line, the
    base64 encoding of the username, a space and the lower-case
    hexadecimal HMAC-MD5 of [chal] keyed by the password; the base64 text
    is used as a format but holds no '%', so it goes out unchanged.  Auth
    then returns the status of the next reply. *)
Theorem Auth_CRAMMD5_response :
  forall (u p : string) (c c1 : Client) (caps : list string) (e : option error)
         (l l2 : string) (rest : list string) (chal : list Z),
    Caps c = Done ((caps, e), c1) ->
    hasCRAMMD5 caps = true ->
    bin c1 = l :: l2 :: rest ->
    Strings.HasPrefix l "+" = true ->
    Base64.DecodeString (remainder l) = (chal, None) ->
    l2 <> "" ->
    Auth u p c
    = Done (statusOf l2,
            mkClient ((conn c1 ++ "AUTH CRAM-MD5" ++ CRLF)
                      ++ Base64.EncodeToString
                           (bytesOf (u ++ " " ++ hex (MD5.HMAC (bytesOf p) chal)))
                      ++ CRLF)
                     rest (binErr c1)).
Proof.
  intros u p c c1 caps e l l2 rest chal Hc Hcram Hb Hp Hd Hl2.
  exact (authCRAMMD5_run u p c c1 caps e l l2 rest chal Hc Hcram Hb Hp Hd Hl2).
Qed.

Lemma Auth_CRAMMD5_response_witness :
  Auth "tim" "tanstaaftanstaaf"
    (server ["+OK"; "SASL CRAM-MD5"; ".";
             "+ PDE4OTYuNjk3MTcwOTUyQHBvc3RvZmZpY2UucmVzdG9uLm1jaS5uZXQ+";
             "-ERR authentication failed"])
  = Done (Some (errorString "authentication failed"),
          mkClient ((("" ++ "CAPA" ++ CRLF) ++ "AUTH CRAM-MD5" ++ CRLF)
                    ++ "dGltIGI5MTNhNjAyYzdlZGE3YTQ5NWI0ZTZlNzMzNGQzODkw" ++ CRLF)
                   [] (ioError "EOF")).
Proof.
  apply (Auth_CRAMMD5_response "tim" "tanstaaftanstaaf"
           (server ["+OK"; "SASL CRAM-MD5"; ".";
                    "+ PDE4OTYuNjk3MTcwOTUyQHBvc3RvZmZpY2UucmVzdG9uLm1jaS5uZXQ+";
                    "-ERR authentication failed"])
           (mkClient ("" ++ "CAPA" ++ CRLF)
              ["+ PDE4OTYuNjk3MTcwOTUyQHBvc3RvZmZpY2UucmVzdG9uLm1jaS5uZXQ+";
               "-ERR authentication failed"] (ioError "EOF"))
           ["SASL CRAM-MD5"] None
           "+ PDE4OTYuNjk3MTcwOTUyQHBvc3RvZmZpY2UucmVzdG9uLm1jaS5uZXQ+"
           "-ERR authentication failed" []
           (bytesOf "<1896.697170952@postoffice.reston.mci.net>"));
    [reflexivity | reflexivity | reflexivity | reflexivity
     | vm_compute; reflexivity | discriminate].
Defined.

(** ** Base64 on the path of the exchange *)
















(** ** The plain exchange and the choice of the mechanism *)

(** X20.  The plain exchange returns the status of the reply to its one
    command: nil when the reply starts with '+', otherwise an error
    carrying the reply's remainder; exactly one line is read. *)
Theorem Auth_plain_result :
  forall (u p : string) (c c1 : Client) (caps : list string) (e : option error)
         (l : string) (rest : list string),
    Caps c = Done ((caps, e), c1) ->
    hasCRAMMD5 caps = false ->
    hasPLAIN caps = true ->
    bin c1 = l :: rest ->
    l <> "" ->
    Auth u p c
    = Done (statusOf l,
            mkClient (conn c1 ++ "AUTH " ++ u ++ " "
                      ++ Base64.EncodeToString (bytesOf p) ++ CRLF)
                     rest (binErr c1)).
Proof.
  intros u p c c1 caps e l rest Hc Hcram Hplain Hb Hl.
  rewrite Auth_select. unfold bind. rewrite Hc. cbn [fst].
  unfold authBranch. rewrite Hcram, Hplain.
  unfold authPlain, bind.
  rewrite (Cmd_status _ _ _ c1 l rest (Sprintf_AUTH u _) Hb Hl).
  unfold statusOf. destruct (Strings.HasPrefix l "+"); reflexivity.
Qed.

Lemma Auth_plain_result_witness :
  Auth "bob" "x" (server ["+OK"; "PLAIN"; "."; "-ERR invalid password"; "y"])
  = Done (Some (errorString "invalid password"),
          mkClient (("" ++ "CAPA" ++ CRLF) ++ "AUTH bob eA==" ++ CRLF) ["y"]
                   (ioError "EOF")).
Proof.
  apply (Auth_plain_result "bob" "x"
           (server ["+OK"; "PLAIN"; "."; "-ERR invalid password"; "y"])
           (mkClient ("" ++ "CAPA" ++ CRLF) ["-ERR invalid password"; "y"] (ioError "EOF"))
           ["PLAIN"] None "-ERR invalid password" ["y"]);
    [reflexivity | reflexivity | reflexivity | reflexivity | discriminate].
Defined.

Lemma find_none_Forall {A} (P : A -> bool) (l : list A) :
  Forall (fun x => P x = false) l -> find P l = None.
Proof.
  induction 1 as [|x l Hx _ IH]; [reflexivity|].
  cbn [find]. rewrite Hx. exact IH.
Qed.

Lemma saslMechanisms_last (caps1 caps2 : list string) (s : string) :
  Strings.HasPrefix s "SASL" = true ->
  Forall (fun x => Strings.HasPrefix x "SASL" = false) caps2 ->
  saslMechanisms (caps1 ++ s :: caps2) = tl (Strings.Split s " ").
Proof.
  intros Hs H2. unfold saslMechanisms.
  rewrite rev_app_distr. cbn [rev]. rewrite <- app_assoc, find_app.
  rewrite (find_none_Forall _ (rev caps2)) by (apply Forall_rev; exact H2).
  cbn [List.app find]. rewrite Hs. reflexivity.
Qed.

(** X21.  Only the last capability that starts with "SASL" counts: its
    words after the first decide whether the CRAM-MD5 exchange is run, and
    mechanisms named by earlier such capabilities are forgotten.  A "PLAIN"
    named as a SASL mechanism does not set the plain flag; only a
    capability that is exactly "PLAIN" does. *)
Theorem Auth_last_SASL_entry_decides :
  forall (u p : string) (c c1 : Client) (caps1 caps2 : list string) (s : string)
         (e : option error),
    Caps c = Done (((caps1 ++ s :: caps2)%list, e), c1) ->
    Strings.HasPrefix s "SASL" = true ->
    Forall (fun x => Strings.HasPrefix x "SASL" = false) caps2 ->
    Auth u p c
    = if existsb (fun v => (v =? "CRAM-MD5")%string) (tl (Strings.Split s " "))
      then authCRAMMD5 u p c1
      else if existsb (fun x => (x =? "PLAIN")%string) (caps1 ++ caps2)%list
           then authPlain u p c1
           else Done (Some (errorString "No supported auth methods found."), c1).
Proof.
  intros u p c c1 caps1 caps2 s e Hc Hs H2.
  rewrite Auth_select. unfold bind. rewrite Hc. cbn [fst].
  unfold authBranch, hasCRAMMD5.
  rewrite (saslMechanisms_last caps1 caps2 s Hs H2).
  unfold hasPLAIN. rewrite !existsb_app. cbn [existsb].
  rewrite (SASL_is_not_PLAIN s Hs). cbn [orb].
  destruct (existsb _ (tl (Strings.Split s " "))); [reflexivity|].
  destruct (existsb _ caps1 || existsb _ caps2); reflexivity.
Qed.

Lemma Auth_last_SASL_entry_decides_witness :
  Auth "tim" "secret"
    (server ["+OK"; "SASL CRAM-MD5"; "SASL PLAIN LOGIN"; "UIDL"; "."; "+OK"])
  = Done (Some (errorString "No supported auth methods found."),
          mkClient ("" ++ "CAPA" ++ CRLF) ["+OK"] (ioError "EOF")).
Proof.
  apply (Auth_last_SASL_entry_decides "tim" "secret"
           (server ["+OK"; "SASL CRAM-MD5"; "SASL PLAIN LOGIN"; "UIDL"; "."; "+OK"])
           (mkClient ("" ++ "CAPA" ++ CRLF) ["+OK"] (ioError "EOF"))
           ["SASL CRAM-MD5"] ["UIDL"] "SASL PLAIN LOGIN" None);
    [reflexivity | reflexivity | repeat constructor].
Defined.

(** ** The choice of the mechanism (C5) *)

(** C5 as stated fails.  In the capabilities "SASL CRAM-MD5", "SASL PLAIN",
    "PLAIN" the mechanism list, read as the specification words it (all
    entries prefixed "SASL", split on whitespace, tags dropped), contains
    "CRAM-MD5"; yet Auth sends no AUTH CRAM-MD5: it keeps only the words of
    the last such entry and goes down its plain branch. *)
Lemma Auth_skips_earlier_SASL_entry :
  In "CRAM-MD5" (specMechanisms ["SASL CRAM-MD5"; "SASL PLAIN"; "PLAIN"])
  /\ Auth "bob" "x"
       (server ["+OK"; "SASL CRAM-MD5"; "SASL PLAIN"; "PLAIN"; "."; "+OK"])
     = Done (None,
             mkClient ("CAPA" ++ CRLF ++ "AUTH bob eA==" ++ CRLF) []
                      (ioError "EOF")).
Proof.
  split.
  - vm_compute. left. reflexivity.
  - vm_compute. reflexivity.
Qed.

(** The same holds for a mechanism set off by a tab: the code cuts at
    single spaces only. *)
Example Auth_cuts_at_spaces_only :
  In "CRAM-MD5" (specMechanisms ["SASL" ++ String (ascii_of_nat 9) "CRAM-MD5"])
  /\ Auth "bob" "x"
       (server ["+OK"; "SASL" ++ String (ascii_of_nat 9) "CRAM-MD5"; "."; "+OK"])
     = Done (Some (errorString "No supported auth methods found."),
             mkClient ("CAPA" ++ CRLF) ["+OK"] (ioError "EOF")).
Proof.
  split.
  - vm_compute. left. reflexivity.
  - vm_compute. reflexivity.
Qed.

(** C5, amended.  Let the mechanism list of a capability list be the words
    after the first of its last entry that starts with "SASL", cut at
    single spaces.  For every capability list Caps returns:
    - if the mechanism list contains "CRAM-MD5", Auth performs the CRAM-MD5
      exchange: it writes AUTH CRAM-MD5; a non-empty reply that does not
      start with '+' is returned as the error, and so is the decoder's
      error when the payload of a '+' reply is not base64, nothing more
      being written; otherwise Auth writes the base64 encoding of the
      username, a space and the hexadecimal HMAC-MD5 of the decoded
      challenge keyed by the password, and returns the status of the next
      non-empty reply;
    - else if an entry is exactly "PLAIN", Auth runs its plain branch: it
      writes one AUTH command whose last word is the base64 encoding of the
      password, and returns the status of the non-empty reply;
    - else Auth fails with "No supported auth methods found." and writes
      nothing after CAPA. *)
Theorem Auth_selects_mechanism :
  forall (u p : string) (c c1 : Client) (caps : list string) (e : option error),
    Caps c = Done ((caps, e), c1) ->
    let sent := conn c1 ++ "AUTH CRAM-MD5" ++ CRLF in
    (hasCRAMMD5 caps = true ->
       (forall l rest,
          bin c1 = l :: rest -> l <> "" -> Strings.HasPrefix l "+" = false ->
          Auth u p c
          = Done (Some (errorString (remainder l)), mkClient sent rest (binErr c1)))
       /\ (forall l rest e',
             bin c1 = l :: rest -> Strings.HasPrefix l "+" = true ->
             snd (Base64.DecodeString (remainder l)) = Some e' ->
             Auth u p c = Done (Some e', mkClient sent rest (binErr c1)))
       /\ (forall l l2 rest chal,
             bin c1 = l :: l2 :: rest -> Strings.HasPrefix l "+" = true ->
             Base64.DecodeString (remainder l) = (chal, None) ->
             l2 <> "" ->
             Auth u p c
             = Done (statusOf l2,
                     mkClient (sent
                               ++ Base64.EncodeToString
                                    (bytesOf (u ++ " "
                                              ++ hex (MD5.HMAC (bytesOf p) chal)))
                               ++ CRLF)
                              rest (binErr c1))))
    /\ (hasCRAMMD5 caps = false -> hasPLAIN caps = true ->
        forall l rest,
          bin c1 = l :: rest -> l <> "" ->
          exists w,
            Auth u p c
            = Done (statusOf l,
                    mkClient (conn c1 ++ "AUTH " ++ w ++ " "
                              ++ Base64.EncodeToString (bytesOf p) ++ CRLF)
                             rest (binErr c1)))
    /\ (hasCRAMMD5 caps = false -> hasPLAIN caps = false ->
        Auth u p c
        = Done (Some (errorString "No supported auth methods found."), c1)).
Proof.
  intros u p c c1 caps e Hc sent.
  split; [|split].
  - intros Hcram.
    pose proof (Auth_CRAMMD5 u p c c1 caps e Hc Hcram) as HA.
    split; [|split].
    + intros l rest Hb Hl Hp. rewrite HA. unfold authCRAMMD5, bind.
      rewrite (Cmd_status "AUTH CRAM-MD5" [] ("AUTH CRAM-MD5" ++ CRLF) c1 l rest
                 eq_refl Hb Hl).
      rewrite Hp. reflexivity.
    + intros l rest e' Hb Hp Hd. rewrite HA. unfold authCRAMMD5, bind.
      rewrite (Cmd_status "AUTH CRAM-MD5" [] ("AUTH CRAM-MD5" ++ CRLF) c1 l rest
                 eq_refl Hb (HasPrefix_plus_nonempty l Hp)).
      rewrite Hp.
      destruct (Base64.DecodeString (remainder l)) as [chal err].
      cbn [snd] in Hd. subst err. reflexivity.
    + intros l l2 rest chal Hb Hp Hd Hl2.
      exact (authCRAMMD5_run u p c c1 caps e l l2 rest chal Hc Hcram Hb Hp Hd Hl2).
  - intros Hcram Hplain l rest Hb Hl. exists u.
    rewrite Auth_select. unfold bind. rewrite Hc. cbn [fst].
    unfold authBranch. rewrite Hcram, Hplain.
    unfold authPlain, bind.
    rewrite (Cmd_status _ _ _ c1 l rest (Sprintf_AUTH u _) Hb Hl).
    unfold statusOf. destruct (Strings.HasPrefix l "+"); reflexivity.
  - intros Hcram Hplain.
    rewrite Auth_select. unfold bind. rewrite Hc. cbn [fst].
    unfold authBranch. rewrite Hcram, Hplain. reflexivity.
Qed.

(** The three capability sets of the claim, run through Auth: the exchange
    of RFC 2195, a plain exchange, and no capability at all. *)
Lemma Auth_selects_mechanism_witness :
  Auth "tim" "tanstaaftanstaaf"
    (server ["+OK"; "SASL CRAM-MD5 PLAIN"; "PLAIN"; ".";
             "+ PDE4OTYuNjk3MTcwOTUyQHBvc3RvZmZpY2UucmVzdG9uLm1jaS5uZXQ+";
             "+OK logged in"])
  = Done (None,
          mkClient ((("" ++ "CAPA" ++ CRLF) ++ "AUTH CRAM-MD5" ++ CRLF)
                    ++ "dGltIGI5MTNhNjAyYzdlZGE3YTQ5NWI0ZTZlNzMzNGQzODkw" ++ CRLF)
                   [] (ioError "EOF"))
  /\ (exists w,
        Auth "bob" "x" (server ["+OK"; "PLAIN"; "."; "-ERR no"])
        = Done (Some (errorString "no"),
                mkClient (("" ++ "CAPA" ++ CRLF) ++ "AUTH " ++ w ++ " " ++ "eA==" ++ CRLF)
                         [] (ioError "EOF")))
  /\ Auth "bob" "x" (server ["+OK"; "."; "+OK"])
     = Done (Some (errorString "No supported auth methods found."),
             mkClient ("" ++ "CAPA" ++ CRLF) ["+OK"] (ioError "EOF")).
Proof.
  split; [|split].
  - apply (proj2 (proj2 (proj1 (Auth_selects_mechanism "tim" "tanstaaftanstaaf"
             (server ["+OK"; "SASL CRAM-MD5 PLAIN"; "PLAIN"; ".";
                      "+ PDE4OTYuNjk3MTcwOTUyQHBvc3RvZmZpY2UucmVzdG9uLm1jaS5uZXQ+";
                      "+OK logged in"])
             (mkClient ("" ++ "CAPA" ++ CRLF)
                ["+ PDE4OTYuNjk3MTcwOTUyQHBvc3RvZmZpY2UucmVzdG9uLm1jaS5uZXQ+";
                 "+OK logged in"] (ioError "EOF"))
             ["SASL CRAM-MD5 PLAIN"; "PLAIN"] None eq_refl) eq_refl))
             "+ PDE4OTYuNjk3MTcwOTUyQHBvc3RvZmZpY2UucmVzdG9uLm1jaS5uZXQ+"
             "+OK logged in" []
             (bytesOf "<1896.697170952@postoffice.reston.mci.net>")).
    + reflexivity.
    + reflexivity.
    + vm_compute. reflexivity.
    + discriminate.
  - apply (proj1 (proj2 (Auth_selects_mechanism "bob" "x"
             (server ["+OK"; "PLAIN"; "."; "-ERR no"])
             (mkClient ("" ++ "CAPA" ++ CRLF) ["-ERR no"] (ioError "EOF"))
             ["PLAIN"] None eq_refl)) eq_refl eq_refl "-ERR no" []);
      [reflexivity | discriminate].
  - apply (proj2 (proj2 (Auth_selects_mechanism "bob" "x"
             (server ["+OK"; "."; "+OK"])
             (mkClient ("" ++ "CAPA" ++ CRLF) ["+OK"] (ioError "EOF"))
             [] None eq_refl)) eq_refl eq_refl).
Defined.
